(** * Chat route handlers: normalisation, request gate, stream context, deletion

    A shallow embedding of [app/(chat)/api/chat/route.ts]: the part normaliser
    [normaliseA2AParts], the lazily initialised resumable stream context
    [getStreamContext], and the two request handlers [POST] and [DELETE],
    together with the completion callbacks [onFinish] and [onError] that
    [POST] hands to the UI message stream.

    Handlers are written in a small state-and-exception monad over a [World]
    that holds the message store, the module-level [globalStreamContext]
    variable and the console.  Everything the handlers obtain from outside the
    module (request body, session, entitlement table, title generation, the
    resumable-stream library) is a field of an [Env] record. *)

From stdpp Require Import base option list strings pretty gmap.
From Stdlib Require Import ZArith Lia.

Local Open Scope Z_scope.

(** ** JavaScript values used by the route *)

(** A message part as the route sees it: an object with a [type] tag, an
    optional [text] property ([None] when the property is absent, [undefined]
    or [null]) and whatever other own properties the producer attached
    (tool-call ids, state flags, provider metadata), kept as key/value
    pairs. *)
Record Part := mkPart {
  part_type  : string;
  part_text  : option string;
  part_props : list (string * string)
}.

#[global] Instance Part_eq_dec : EqDecision Part.
Proof. solve_decision. Defined.

(** The object literal [{ type: 'text', text }]. *)
Definition textPart (text : string) : Part := mkPart "text" (Some text) [].

(** [String(x)] as [Array.prototype.join] applies it to an element:
    [undefined] and [null] become the empty string. *)
Definition join_elem (x : option string) : string := default "" x.

(** [Array.prototype.join(sep)]. *)
Fixpoint join (sep : string) (xs : list (option string)) : string :=
  match xs with
  | [] => ""
  | [x] => join_elem x
  | x :: rest => join_elem x +:+ sep +:+ join sep rest
  end.

(** Truthiness of a JavaScript string: every string but the empty one. *)
Definition truthy (s : string) : bool :=
  match s with
  | EmptyString => false
  | String _ _ => true
  end.

(** [p.type === 'text'] *)
Definition isTextPart (p : Part) : bool := bool_decide (part_type p = "text").

Definition normaliseA2AParts (parts : list Part) : list Part :=
  let text := join "" (map part_text (List.filter isTextPart parts)) in
  if truthy text then [textPart text] else [].

(** ** Messages, conversations and the message store *)

(** [ChatMessage] of [@/lib/types], as far as the route reads it. *)
Record ChatMessage := mkChatMessage {
  cm_id    : string;
  cm_role  : string;
  cm_parts : list Part
}.

(** An attachment of a stored turn; the route only ever writes [[]]. *)
Record Attachment := mkAttachment {
  att_name : string;
  att_url  : string
}.

(** A row handed to [saveMessages]. [msg_createdAt] is the value of
    [new Date()] in milliseconds. *)
Record DBMessage := mkDBMessage {
  msg_chatId      : string;
  msg_id          : string;
  msg_role        : string;
  msg_parts       : list Part;
  msg_attachments : list Attachment;
  msg_createdAt   : Z
}.

(** A row of the chat table. *)
Record Chat := mkChat {
  chat_id         : string;
  chat_userId     : string;
  chat_title      : string;
  chat_visibility : string
}.

Record Store := mkStore {
  chats    : gmap string Chat;
  messages : list DBMessage;
  streams  : list (string * string)      (* (streamId, chatId) *)
}.

(** ** Errors and responses *)

(** A thrown JavaScript value, described by what the route inspects:
    whether it is an instance of [ChatSDKError] (and with which code),
    whether it is an instance of [Error], its [message] property, and whether
    it carries a truthy [response] and an array-valued [errors]. *)
Record Exn := mkExn {
  exn_chatSDK  : option string;
  exn_isError  : bool;
  exn_message  : option string;
  exn_response : bool;
  exn_errors   : bool
}.

#[global] Instance Exn_eq_dec : EqDecision Exn.
Proof. solve_decision. Defined.

(** The [TypeError] raised on reading a property of an absent value (its
    message is written for [undefined]; for [null] only the message would
    differ). *)
Definition typeError (prop : string) : Exn :=
  mkExn None true
        (Some ("Cannot read properties of undefined (reading '" +:+ prop +:+ "')"))
        false false.

(** What [createUIMessageStream] is called with: the conversation, the model,
    the messages sent to it, the tools made available and the step bound.
    The closures [onFinish] and [onError] below are its callbacks. *)
Record UIMessageStream := mkStream {
  stream_chatId      : string;
  stream_model       : string;
  stream_messages    : list ChatMessage;
  stream_activeTools : list string;
  stream_stepLimit   : nat
}.

Inductive Response :=
  | ErrorResponse (code : string)
      (* new ChatSDKError(code).toResponse() *)
  | StreamResponse (resumableId : option string) (stream : UIMessageStream)
      (* new Response(stream ...); [Some streamId] when the stream was
         obtained from the resumable context *)
  | JsonResponse (status : Z) (body : option Chat).
      (* Response.json(body, { status }) *)

Definition toResponse (code : string) : Response := ErrorResponse code.

Inductive ConsoleEntry :=
  | ConsoleLog (label : string)          (* console.log(label, ...) *)
  | ConsoleError (label : string)        (* console.error(label, ...) *)
  | ConsoleErrorValue (e : Exn).         (* console.error(error) *)

#[global] Instance ConsoleEntry_eq_dec : EqDecision ConsoleEntry.
Proof. solve_decision. Defined.

(** ** The world and the environment *)

(** The handle returned by [createResumableStreamContext]. *)
Inductive ResumableStreamContext := ResumableCtx (handle : nat).

(** The state the handlers run in.  [clock] stands still while one handler
    or callback runs; [ctxAttempts] and [uuidCalls] count the calls made to
    the two collaborators whose answers may change from call to call. *)
Record World := mkWorld {
  store               : Store;
  globalStreamContext : option ResumableStreamContext;
  console             : list ConsoleEntry;
  clock               : Z;     (* what [new Date()] reads *)
  ctxAttempts         : nat;   (* calls made to [createResumableStreamContext] *)
  uuidCalls           : nat    (* calls made to [generateUUID] *)
}.

Record User := mkUser {
  user_id   : string;
  user_type : string
}.

Record Session := mkSession {
  session_user : option User
}.

Record Entitlements := mkEntitlements {
  maxMessagesPerDay : Z
}.

Record PostRequestBody := mkPostRequestBody {
  body_id                     : string;
  body_message                : ChatMessage;
  body_selectedChatModel      : string;
  body_selectedVisibilityType : string
}.

(** What reading and validating the body of a request gives:
    [request.json()] rejects, [postRequestBodySchema.parse] rejects, or
    both succeed. *)
Inductive RequestBody :=
  | BodyUnreadable (error : Exn)
  | BodyInvalid (error : Exn)
  | BodyOk (body : PostRequestBody).

Record Request := mkRequest {
  req_body : RequestBody;
  req_id   : option string      (* searchParams.get('id') *)
}.

(** Collaborators outside the module.  [createResumableStreamContext] is
    indexed by the number of earlier calls, and [generateUUID] likewise, so
    that successive calls may answer differently. *)
Record Env := mkEnv {
  auth                         : option Session;
  entitlementsByUserType       : string → Entitlements;
  generateTitleFromUserMessage : ChatMessage → Exn + string;
  generateUUID                 : nat → string;
  createResumableStreamContext : nat → Exn + ResumableStreamContext;
  resumableStream              : ResumableStreamContext → string → option Exn
}.

(** ** The handler monad: state, exceptions and early [return] *)

Inductive Outcome (A : Type) :=
  | Val (a : A)            (* the statement completed with a value *)
  | Ret (r : Response)     (* a [return] statement left the function *)
  | Throw (e : Exn).       (* an exception is propagating *)
Arguments Val {A} a.
Arguments Ret {A} r.
Arguments Throw {A} e.

Definition M (A : Type) : Type := World → Outcome A * World.

#[global] Instance M_ret : MRet M := λ A a w, (Val a, w).

#[global] Instance M_bind : MBind M := λ A B f m w,
  match m w with
  | (Val a, w') => f a w'
  | (Ret r, w') => (Ret r, w')
  | (Throw e, w') => (Throw e, w')
  end.

Definition return_ {A} (r : Response) : M A := λ w, (Ret r, w).
Definition throw {A} (e : Exn) : M A := λ w, (Throw e, w).

(** [try { body } catch (error) { handler error }] *)
Definition tryCatch {A} (body : M A) (handler : Exn → M A) : M A := λ w,
  match body w with
  | (Throw e, w') => handler e w'
  | r => r
  end.

Definition gets {A} (f : World → A) : M A := λ w, (Val (f w), w).
Definition modify (f : World → World) : M unit := λ w, (Val (), f w).

(** Calling a handler: the response it returns, or the exception that
    escapes it. *)
Definition escape (o : Outcome Response) : Exn + Response :=
  match o with
  | Val r => inr r
  | Ret r => inr r
  | Throw e => inl e
  end.

Definition call (handler : M Response) (w : World) : (Exn + Response) * World :=
  (escape (fst (handler w)), snd (handler w)).

Definition set_store (s : Store) (w : World) : World :=
  mkWorld s (globalStreamContext w) (console w) (clock w) (ctxAttempts w) (uuidCalls w).

Definition add_console (entries : list ConsoleEntry) (w : World) : World :=
  mkWorld (store w) (globalStreamContext w) (console w ++ entries) (clock w)
          (ctxAttempts w) (uuidCalls w).

Definition emit (e : ConsoleEntry) : M unit := modify (add_console [e]).

Definition console_log (label : string) : M unit := emit (ConsoleLog label).
Definition console_error (label : string) : M unit := emit (ConsoleError label).

(** [new Date()] *)
Definition newDate : M Z := gets clock.

(** ** Message store queries ([@/lib/db/queries]) *)

(** Modelled from the spec: [getChatById] is the Message Store's
    [getConversation(id)]; the conversation with that id, or nothing. *)
Definition getChatById (id : string) : M (option Chat) :=
  gets (λ w, chats (store w) !! id).

(** Modelled from the spec: [saveChat] is the Message Store's
    [createConversation(...)]. *)
Definition saveChat (c : Chat) : M unit := modify (λ w,
  set_store (mkStore (<[chat_id c := c]> (chats (store w)))
                     (messages (store w)) (streams (store w))) w).

(** Modelled from the spec: [getMessagesByChatId] is the Message Store's
    [getTurns(id)], the turns of one conversation in stored order. *)
Definition getMessagesByChatId (id : string) : M (list DBMessage) :=
  gets (λ w, List.filter (λ m, bool_decide (msg_chatId m = id)) (messages (store w))).

(** Modelled from the spec: [saveMessages] is the Message Store's
    [appendTurns(...)]; turns are appended, never mutated. *)
Definition saveMessages (ms : list DBMessage) : M unit := modify (λ w,
  set_store (mkStore (chats (store w)) (messages (store w) ++ ms)
                     (streams (store w))) w).

Definition ownedBy (s : Store) (userId : string) (m : DBMessage) : bool :=
  match chats s !! msg_chatId m with
  | Some c => bool_decide (chat_userId c = userId)
  | None => false
  end.

(** Modelled from the spec: [getMessageCountByUserId] is the Message Store's
    [countRecentTurns(userId, windowHours)], the caller's rolling message
    count over the trailing window: user turns of the caller's conversations
    created within the last [differenceInHours] hours. *)
Definition countRecent (s : Store) (now : Z) (id : string) (differenceInHours : Z) : Z :=
  Z.of_nat (length (List.filter
    (λ m, ownedBy s id m
          && bool_decide (msg_role m = "user")
          && bool_decide (now - differenceInHours * 3600000 ≤ msg_createdAt m))
    (messages s))).

Definition getMessageCountByUserId (id : string) (differenceInHours : Z) : M Z :=
  gets (λ w, countRecent (store w) (clock w) id differenceInHours).

(** Modelled from the spec: [createStreamId] is the Message Store's
    [createStreamSession(...)], recording a [{streamId, chatId}] pair. *)
Definition createStreamId (streamId chatId : string) : M unit := modify (λ w,
  set_store (mkStore (chats (store w)) (messages (store w))
                     (streams (store w) ++ [(streamId, chatId)])) w).

(** Modelled from the spec: [deleteChatById] deletes a conversation and its
    turns, returning the deleted record. *)
Definition deleteChatById (id : string) : M (option Chat) := λ w,
  (Val (chats (store w) !! id),
   set_store (mkStore (delete id (chats (store w)))
                      (List.filter (λ m, negb (bool_decide (msg_chatId m = id)))
                                   (messages (store w)))
                      (streams (store w))) w).

(** Modelled from the spec: [convertToUIMessages] of [@/lib/utils] converts
    the stored conversation history back to messages, turn by turn. *)
Definition convertToUIMessages (ms : list DBMessage) : list ChatMessage :=
  map (λ m, mkChatMessage (msg_id m) (msg_role m) (msg_parts m)) ms.

(** ** Calls into the environment *)

Definition lift_result {A} (r : Exn + A) : M A :=
  match r with
  | inl e => throw e
  | inr a => mret a
  end.

Definition tick_uuidCalls (w : World) : World :=
  mkWorld (store w) (globalStreamContext w) (console w) (clock w)
          (ctxAttempts w) (S (uuidCalls w)).

Definition tick_ctxAttempts (w : World) : World :=
  mkWorld (store w) (globalStreamContext w) (console w) (clock w)
          (S (ctxAttempts w)) (uuidCalls w).

Definition generateUUID_call (env : Env) : M string := λ w,
  (Val (generateUUID env (uuidCalls w)), tick_uuidCalls w).

Definition createResumableStreamContext_call (env : Env) : M ResumableStreamContext := λ w,
  lift_result (createResumableStreamContext env (ctxAttempts w)) (tick_ctxAttempts w).

Definition set_globalStreamContext (g : option ResumableStreamContext) : M unit :=
  modify (λ w, mkWorld (store w) g (console w) (clock w) (ctxAttempts w) (uuidCalls w)).

Definition resumableStream_call (env : Env) (ctx : ResumableStreamContext)
    (streamId : string) : M unit :=
  match resumableStream env ctx streamId with
  | Some e => throw e
  | None => mret ()
  end.

(** [haystack.includes(needle)] *)
Definition includes (needle haystack : string) : bool :=
  match String.index 0 needle haystack with
  | Some _ => true
  | None => false
  end.

(** ** [getStreamContext] *)

Definition disabledNotice : string :=
  " > Resumable streams are disabled due to missing REDIS_URL".

Definition getStreamContext (env : Env) : M (option ResumableStreamContext) :=
  g ← gets globalStreamContext;
  match g with
  | None =>
      tryCatch
        (ctx ← createResumableStreamContext_call env;
         set_globalStreamContext (Some ctx))
        (λ error,
           match exn_message error with
           | None => throw (typeError "includes")
           | Some message =>
               if includes "REDIS_URL" message
               then console_log disabledNotice
               else emit (ConsoleErrorValue error)
           end)
  | Some _ => mret ()
  end;;
  gets globalStreamContext.

(** ** The stream callbacks *)

Definition a2a (selectedChatModel : string) : bool :=
  bool_decide (selectedChatModel = "a2a-model").

(** The row [onFinish] builds for one message of the finished stream. *)
Definition finishedRow (selectedChatModel id : string) (createdAt : Z)
    (message : ChatMessage) : DBMessage :=
  let parts :=
    if a2a selectedChatModel
    then normaliseA2AParts (cm_parts message)
    else cm_parts message in
  mkDBMessage id (cm_id message) (cm_role message) parts [] createdAt.

(** [messages.forEach((message, idx) => console.log(`Message ${idx}:`, message))] *)
Fixpoint logMessages (idx : nat) (ms : list ChatMessage) : M unit :=
  match ms with
  | [] => mret ()
  | _ :: rest =>
      console_log ("Message " +:+ pretty idx +:+ ":");;
      logMessages (S idx) rest
  end.

(** The [onFinish] closure of [POST], with the variables it captures
    ([selectedChatModel], [id]) as parameters. *)
Definition onFinish (selectedChatModel id : string) (ms : list ChatMessage) : M unit :=
  console_log "Stream finished. Messages to save:";;
  logMessages 0 ms;;
  createdAt ← newDate;
  saveMessages (map (finishedRow selectedChatModel id createdAt) ms);;
  console_log "Messages saved to DB".

(** The [onError] closure of [POST]. *)
Definition onError (streamError : Exn) : M string :=
  console_error "Error within createUIMessageStream:";;
  (if exn_isError streamError then console_error "Error stack:" else mret ());;
  mret "Oops, an error occurred!".

(** ** The handlers *)

Definition maxDuration : Z := 60.

Definition chatModelTools : list string :=
  ["getWeather"; "createDocument"; "updateDocument"; "requestSuggestions"].

(** The argument of [createUIMessageStream] in [POST]. *)
Definition createUIMessageStream (id selectedChatModel : string)
    (uiMessages : list ChatMessage) : UIMessageStream :=
  mkStream id selectedChatModel uiMessages
           (if bool_decide (selectedChatModel = "chat-model") then chatModelTools else [])
           5.

(** The [catch] block of the main [try] of [POST]. *)
Definition POST_catch (error : Exn) : M Response :=
  match exn_chatSDK error with
  | Some code => return_ (toResponse code)
  | None =>
      console_error "Unhandled error in chat API:";;
      (if exn_isError error then
         console_error "Error message:";;
         console_error "Error stack:";;
         (if exn_response error then
            console_error "Error response status:";;
            console_error "Error response data:"
          else mret ());;
         (if exn_errors error then console_error "Aggregate sub-errors:" else mret ())
       else mret ());;
      return_ (toResponse "offline:chat")
  end.

(** [POST].  The geolocation lookup only feeds the system prompt and is
    represented by its two console lines. *)
Definition POST (env : Env) (request : Request) : M Response :=
  requestBody ← tryCatch
    (match req_body request with
     | BodyUnreadable error => throw error
     | BodyInvalid error => console_log "Received chat request:";; throw error
     | BodyOk body => console_log "Received chat request:";; mret body
     end)
    (λ error,
       console_error "Failed to parse request body:";;
       return_ (toResponse "bad_request:api"));
  tryCatch
    (let id := body_id requestBody in
     let message := body_message requestBody in
     let selectedChatModel := body_selectedChatModel requestBody in
     let selectedVisibilityType := body_selectedVisibilityType requestBody in
     console_log "Processing chat request with ID:";;
     let session := auth env in
     user ← match session ≫= session_user with
            | None =>
                console_log "No authenticated user found";;
                return_ (toResponse "unauthorized:chat")
            | Some user => mret user
            end;
     console_log "Authenticated user:";;
     let userType := user_type user in
     messageCount ← getMessageCountByUserId (user_id user) 24;
     console_log "User message count:";;
     (if bool_decide (messageCount > maxMessagesPerDay (entitlementsByUserType env userType))
      then
        console_log "User exceeded message limit";;
        return_ (toResponse "rate_limit:chat")
      else mret ());;
     chat ← getChatById id;
     console_log "Existing chat:";;
     match chat with
     | None =>
         console_log "Creating new chat...";;
         title ← lift_result (generateTitleFromUserMessage env message);
         console_log "Generated title:";;
         saveChat (mkChat id (user_id user) title selectedVisibilityType);;
         console_log "New chat saved successfully"
     | Some chat =>
         if bool_decide (chat_userId chat ≠ user_id user)
         then
           console_log "User not authorized to access chat";;
           return_ (toResponse "forbidden:chat")
         else mret ()
     end;;
     console_log "Fetching messages from DB for chat ID:";;
     messagesFromDb ← getMessagesByChatId id;
     console_log "Messages from DB:";;
     let uiMessages := convertToUIMessages messagesFromDb ++ [message] in
     console_log "UI messages prior to streaming:";;
     console_log "Getting geolocation from request...";;
     console_log "Geolocation data:";;
     (if a2a selectedChatModel then console_log "Raw A2A parts:" else mret ());;
     let cleaned :=
       if a2a selectedChatModel
       then normaliseA2AParts (cm_parts message)
       else cm_parts message in
     createdAt ← newDate;
     saveMessages [mkDBMessage id (cm_id message) "user" cleaned [] createdAt];;
     streamId ← generateUUID_call env;
     createStreamId streamId id;;
     let stream := createUIMessageStream id selectedChatModel uiMessages in
     streamContext ← getStreamContext env;
     match streamContext with
     | Some ctx =>
         resumableStream_call env ctx streamId;;
         return_ (StreamResponse (Some streamId) stream)
     | None => return_ (StreamResponse None stream)
     end)
    POST_catch.

(** [!id] for the value of [searchParams.get('id')]: [null] and the empty
    string are falsy. *)
Definition missing (id : option string) : bool :=
  match id with
  | None => true
  | Some s => negb (truthy s)
  end.

(** [DELETE].  It has no [try]: an exception raised in it escapes. *)
Definition DELETE (env : Env) (request : Request) : M Response :=
  let id := req_id request in
  (if missing id then return_ (toResponse "bad_request:api") else mret ());;
  let id := default "" id in
  let session := auth env in
  user ← match session ≫= session_user with
         | None => return_ (toResponse "unauthorized:chat")
         | Some user => mret user
         end;
  chat ← getChatById id;
  userId ← match chat with
           | None => throw (typeError "userId")
           | Some chat => mret (chat_userId chat)
           end;
  (if bool_decide (userId ≠ user_id user)
   then return_ (toResponse "forbidden:chat")
   else mret ());;
  deletedChat ← deleteChatById id;
  return_ (JsonResponse 200 deletedChat).

(** ** Vocabulary of the properties *)

Definition exec {A} (m : M A) (w : World) : World := snd (m w).
Definition outcome {A} (m : M A) (w : World) : Outcome A := fst (m w).

Definition concatStrings (xs : list string) : string :=
  fold_right String.append "" xs.

(** The text a part carries: its [text] property, empty when absent. *)
Definition content (p : Part) : string := join_elem (part_text p).

(** What the [text] fragments of a sequence carry, concatenated in order
    with nothing in between; every other fragment is dropped. *)
Definition textContent (parts : list Part) : string :=
  concatStrings (map content (filter (λ p, part_type p = "text") parts)).

(** The contract of the normaliser, written without any of the definitions
    the code is built from.  [specText] walks the fragments in order; a
    fragment whose type is ['text'] contributes its text (nothing when it
    has none), any other fragment contributes nothing, and nothing is put
    between two contributions. *)
Fixpoint specText (parts : list Part) : string :=
  match parts with
  | [] => ""
  | p :: rest =>
      if decide (part_type p = "text")
      then default "" (part_text p) +:+ specText rest
      else specText rest
  end.

(** One part, of type ['text'], holding that string and nothing else when
    the string is not empty; no part at all when it is. *)
Definition normalize_spec (parts : list Part) : list Part :=
  if decide (specText parts = "")
  then []
  else [mkPart "text" (Some (specText parts)) []].

(** Structural step markers, and the parts a client renders. *)
Definition isStepMarker (p : Part) : bool :=
  bool_decide (part_type p = "step-start") || bool_decide (part_type p = "step-end").

Definition isVisible (p : Part) : bool :=
  bool_decide (part_type p = "text") || bool_decide (part_type p = "reasoning").

Definition visibleContent (parts : list Part) : string :=
  concatStrings (map content (List.filter isVisible parts)).

(** ** Weakest preconditions for handler code *)

Definition wp {A} (m : M A) (w : World) (Q : Outcome A → World → Prop) : Prop :=
  Q (outcome m w) (exec m w).

(** What a postcondition of [m ≫= f] asks of [m]. *)
Definition after_bind {A B} (f : A → M B) (Q : Outcome B → World → Prop)
    (o : Outcome A) (w : World) : Prop :=
  match o with
  | Val a => wp (f a) w Q
  | Ret r => Q (Ret r) w
  | Throw e => Q (Throw e) w
  end.

(** What a postcondition of [tryCatch body handler] asks of [body]. *)
Definition after_try {A} (handler : Exn → M A) (Q : Outcome A → World → Prop)
    (o : Outcome A) (w : World) : Prop :=
  match o with
  | Throw e => wp (handler e) w Q
  | _ => Q o w
  end.

(** ** Requests that pass the gate of [POST] *)

(** The requests that [POST] lets through to the point where the user turn
    is saved: the body is well formed, someone is signed in, their message
    count does not exceed the quota of their tier, and the conversation is
    either new (and a title can be generated for it) or their own. *)
Definition passesGate (env : Env) (request : Request) (w : World)
    (body : PostRequestBody) (user : User) : Prop :=
  req_body request = BodyOk body
  ∧ auth env ≫= session_user = Some user
  ∧ countRecent (store w) (clock w) (user_id user) 24
      ≤ maxMessagesPerDay (entitlementsByUserType env (user_type user))
  ∧ match chats (store w) !! body_id body with
    | None => ∃ title, generateTitleFromUserMessage env (body_message body) = inr title
    | Some chat => chat_userId chat = user_id user
    end.

(** The parts [POST] stores for the user turn. *)
Definition cleanedParts (body : PostRequestBody) : list Part :=
  if a2a (body_selectedChatModel body)
  then normaliseA2AParts (cm_parts (body_message body))
  else cm_parts (body_message body).

Definition userTurn (body : PostRequestBody) (createdAt : Z) : DBMessage :=
  mkDBMessage (body_id body) (cm_id (body_message body)) "user"
              (cleanedParts body) [] createdAt.

(** The stream [POST] builds: the stored history of the conversation
    followed by the incoming message. *)
Definition streamFor (body : PostRequestBody) (w : World) : UIMessageStream :=
  createUIMessageStream (body_id body) (body_selectedChatModel body)
    (convertToUIMessages
       (List.filter (λ m, bool_decide (msg_chatId m = body_id body)) (messages (store w)))
     ++ [body_message body]).

Definition rejectedLog : list ConsoleEntry :=
  [ConsoleLog "Received chat request:";
   ConsoleLog "Processing chat request with ID:";
   ConsoleLog "Authenticated user:";
   ConsoleLog "User message count:";
   ConsoleLog "User exceeded message limit"].

(** ** Sample users, stores, environments and requests *)

Definition emptyStore : Store := mkStore ∅ [] [].
Definition world0 : World := mkWorld emptyStore None [] 0 0 0.

Definition missingRedisUrl : Exn :=
  mkExn None true (Some "REDIS_URL environment variable is not set") false false.

(** An environment with no one signed in and no resumable-stream
    configuration. *)
Definition envNoRedis : Env :=
  mkEnv None
        (λ _, mkEntitlements 20)
        (λ _, inr "New chat")
        (λ n, "uuid-" +:+ pretty n)
        (λ _, inl missingRedisUrl)
        (λ _ _, None).

(** Two users, and a store holding one conversation of the first. *)
Definition alice : User := mkUser "user-alice" "regular".
Definition bob : User := mkUser "user-bob" "regular".

Definition aliceChat : Chat := mkChat "chat-1" "user-alice" "Greetings" "private".

Definition aliceTurn (n : nat) (createdAt : Z) : DBMessage :=
  mkDBMessage "chat-1" ("m-" +:+ pretty n) "user"
              [textPart "hello"] [] createdAt.

Definition aliceStore : Store :=
  mkStore {["chat-1" := aliceChat]} [aliceTurn 0 10; aliceTurn 1 20] [].

Definition aliceWorld : World := mkWorld aliceStore None [] 1000 0 0.

Definition envOf (user : User) (quota : Z) : Env :=
  mkEnv (Some (mkSession (Some user)))
        (λ _, mkEntitlements quota)
        (λ _, inr "New chat")
        (λ n, "uuid-" +:+ pretty n)
        (λ _, inl missingRedisUrl)
        (λ _ _, None).

(** A request by the owner of the stored conversation, through the a2a
    model, whose message carries no text fragment. *)
Definition markersOnly : ChatMessage :=
  mkChatMessage "m-2" "user"
    [mkPart "step-start" None []; mkPart "file" None [("url", "blob:1")]].

Definition a2aRequest : Request :=
  mkRequest (BodyOk (mkPostRequestBody "chat-1" markersOnly "a2a-model" "private")) None.

Definition greeting : ChatMessage := mkChatMessage "m-2" "user" [textPart "hi"].

(** A request by the owner of the stored conversation through the default
    model. *)
Definition chatRequest : Request :=
  mkRequest (BodyOk (mkPostRequestBody "chat-1" greeting "chat-model" "private")) None.

(** ** Vocabulary of the further properties *)

(** A computation that lets no exception out, whatever the world. *)
Definition never_throws {A} (m : M A) : Prop :=
  ∀ w e, outcome m w ≠ Throw e.

(** [s'] holds everything [s] holds: the turns and stream sessions of [s]
    are still there, in the same order and before any new one, and every
    conversation of [s] is unchanged. *)
Definition store_extends (s s' : Store) : Prop :=
  (∃ rows, messages s' = messages s ++ rows)
  ∧ (∃ sessions, streams s' = streams s ++ sessions)
  ∧ (∀ id c, chats s !! id = Some c → chats s' !! id = Some c).

(** Every stored turn belongs to a stored conversation. *)
Definition turns_have_chats (s : Store) : Prop :=
  ∀ m, m ∈ messages s → is_Some (chats s !! msg_chatId m).


(** ** Further sample environments and requests *)

Definition readyContext : ResumableStreamContext := ResumableCtx 1.

(** A thrown value that carries no [message]. *)
Definition bareThrow : Exn := mkExn None false None false false.

Definition connectionRefused : Exn :=
  mkExn None true (Some "connect ECONNREFUSED 127.0.0.1:6379") false false.

(** An environment described by who is signed in, the quota, what title
    generation gives, what creating the resumable context gives and whether
    opening a resumable stream fails. *)
Definition envWith (user : option User) (quota : Z) (title : Exn + string)
    (context : Exn + ResumableStreamContext) (streamFault : option Exn) : Env :=
  mkEnv (Some (mkSession user))
        (λ _, mkEntitlements quota)
        (λ _, title)
        (λ n, "uuid-" +:+ pretty n)
        (λ _, context)
        (λ _ _, streamFault).


(** ** What [POST] leaves behind *)

(** Two worlds that differ at most in what was written to the console. *)
Definition only_console_differs (w w' : World) : Prop :=
  store w' = store w
  ∧ globalStreamContext w' = globalStreamContext w
  ∧ ctxAttempts w' = ctxAttempts w
  ∧ uuidCalls w' = uuidCalls w
  ∧ clock w' = clock w.

(** The conversations after a request that passed the gate: the one the
    request names is created, with the generated title, when it did not
    exist. *)
Definition resolvedChats (env : Env) (body : PostRequestBody) (user : User)
    (s : Store) : gmap string Chat :=
  match chats s !! body_id body, generateTitleFromUserMessage env (body_message body) with
  | None, inr title =>
      <[body_id body := mkChat (body_id body) (user_id user) title
                               (body_selectedVisibilityType body)]> (chats s)
  | _, _ => chats s
  end.

(** The store after a request that passed the gate: the conversation
    resolved, the user turn appended, the stream session recorded. *)
Definition storeAfterPOST (env : Env) (body : PostRequestBody) (user : User)
    (w : World) : Store :=
  mkStore (resolvedChats env body user (store w))
          (messages (store w) ++ [userTurn body (clock w)])
          (streams (store w) ++ [(generateUUID env (uuidCalls w), body_id body)]).

(** The code of the response that the [catch] block of [POST] gives for an
    error. *)
Definition caughtCode (e : Exn) : string := default "offline:chat" (exn_chatSDK e).

(** A request for a conversation that is not stored yet. *)
Definition newChatRequest : Request :=
  mkRequest (BodyOk (mkPostRequestBody "chat-9" greeting "chat-model" "public")) None.

Definition modelOverloaded : Exn :=
  mkExn None true (Some "model overloaded") false false.

Definition databaseDown : Exn :=
  mkExn (Some "bad_request:database") true (Some "Failed to save") false false.


(** ** The model catalogue and the provider table *)

(** [ChatModel] of the model catalogue. *)
Record ChatModel := mkChatModel {
  model_id          : string;
  model_name        : string;
  model_description : string
}.

Definition DEFAULT_CHAT_MODEL : string := "chat-model".

Definition chatModels : list ChatModel :=
  [mkChatModel "chat-model" "OpenAI GPT-4 Vision"
     "OpenAI GPT-4 model with multimodal vision and text capabilities";
   mkChatModel "chat-model-reasoning" "OpenAI GPT-4 Reasoning"
     "GPT-4 model optimized for advanced chain-of-thought reasoning on complex problems";
   mkChatModel "a2a-model" "A2A Chat"
     "Chat powered by on-prem A2A AI server"].

(** A language model as [lib/ai/providers.ts] builds it. *)
Inductive LanguageModel :=
  | TestModel (name : string)
      (* chatModel, reasoningModel, titleModel, artifactModel of ./models.test *)
  | OpenAIModel (modelId : string)
      (* openai.languageModel(modelId) *)
  | ReasoningModel (tagName : string) (model : LanguageModel)
      (* wrapLanguageModel with extractReasoningMiddleware({ tagName }) *)
  | A2AModel (url : string).
      (* a2a(url) *)

(** The [languageModels] table handed to [customProvider], by environment. *)
Definition myProvider (isTestEnvironment : bool) : gmap string LanguageModel :=
  if isTestEnvironment
  then list_to_map
         [("chat-model", TestModel "chatModel");
          ("chat-model-reasoning", TestModel "reasoningModel");
          ("title-model", TestModel "titleModel");
          ("artifact-model", TestModel "artifactModel")]
  else list_to_map
         [("chat-model", OpenAIModel "gpt-4");
          ("chat-model-reasoning", ReasoningModel "think" (OpenAIModel "gpt-4"));
          ("title-model", OpenAIModel "gpt-4");
          ("artifact-model", OpenAIModel "gpt-4");
          ("a2a-model", A2AModel "http://localhost:9999")].

(** * Properties *)

(** ** The normaliser *)

Lemma append_empty_l (s : string) : "" +:+ s = s.
Proof. reflexivity. Qed.

Lemma append_empty_r (s : string) : s +:+ "" = s.
Proof.
  induction s as [|c s IH]; [done|].
  change (String c (s +:+ "") = String c s). by rewrite IH.
Qed.

Lemma join_no_separator (xs : list (option string)) :
  join "" xs = concatStrings (map join_elem xs).
Proof.
  induction xs as [|x [|y rest] IH]; simpl in *.
  - done.
  - by rewrite append_empty_r.
  - by rewrite append_empty_l, IH.
Qed.

Lemma filter_isTextPart (parts : list Part) :
  List.filter isTextPart parts = filter (λ p, part_type p = "text") parts.
Proof.
  induction parts as [|p ps IH]; [done|].
  simpl. rewrite filter_cons. unfold isTextPart at 1.
  destruct (decide (part_type p = "text")) as [Heq|Hne].
  - rewrite bool_decide_eq_true_2 by done. by rewrite IH.
  - rewrite bool_decide_eq_false_2 by done. done.
Qed.

Lemma truthy_false (s : string) : truthy s = false ↔ s = "".
Proof. destruct s; simpl; split; congruence. Qed.

Lemma normalised_text (parts : list Part) :
  join "" (map part_text (List.filter isTextPart parts)) = textContent parts.
Proof.
  rewrite join_no_separator, filter_isTextPart. unfold textContent, content.
  by rewrite map_map.
Qed.

Lemma normaliseA2AParts_unfold (parts : list Part) :
  normaliseA2AParts parts =
  if truthy (textContent parts) then [textPart (textContent parts)] else [].
Proof. unfold normaliseA2AParts. by rewrite normalised_text. Qed.

Lemma textContent_no_text (parts : list Part) :
  Forall (λ p, part_type p ≠ "text") parts → textContent parts = "".
Proof.
  intros Hall. unfold textContent.
  induction Hall as [|p ps Hp _ IH]; [done|].
  rewrite filter_cons. by destruct (decide (part_type p = "text")).
Qed.

Lemma normaliseA2AParts_no_text (parts : list Part) :
  Forall (λ p, part_type p ≠ "text") parts → normaliseA2AParts parts = [].
Proof.
  intros Hall. rewrite normaliseA2AParts_unfold.
  by rewrite (textContent_no_text parts Hall).
Qed.

Lemma textContent_specText (parts : list Part) :
  textContent parts = specText parts.
Proof.
  induction parts as [|p ps IH]; [done|].
  unfold textContent in *. rewrite filter_cons. simpl.
  destruct (decide (part_type p = "text")); [|done].
  simpl. by rewrite IH.
Qed.

(** C1: on every input, [normaliseA2AParts] drops the fragments whose type
    is not ['text'], joins the text of the others in order with no separator,
    and returns exactly one text part holding that string when it is not
    empty and the empty sequence when it is; in particular an input with no
    text fragment at all (the empty input, or structural markers only) gives
    the empty sequence. *)
Theorem normaliseA2AParts_meets_contract (parts : list Part) :
  normaliseA2AParts parts = normalize_spec parts
  ∧ (Forall (λ p, part_type p ≠ "text") parts → normaliseA2AParts parts = []).
Proof.
  split; [|apply normaliseA2AParts_no_text].
  unfold normaliseA2AParts, normalize_spec.
  rewrite join_no_separator, filter_isTextPart, map_map.
  change (concatStrings (map (λ p, join_elem (part_text p))
                             (filter (λ p, part_type p = "text") parts)))
    with (textContent parts).
  rewrite textContent_specText.
  destruct (truthy (specText parts)) eqn:Ht.
  - destruct (decide (specText parts = "")) as [Hempty|]; [|done].
    apply truthy_false in Hempty. congruence.
  - apply truthy_false in Ht. by rewrite decide_True.
Qed.

Lemma normaliseA2AParts_meets_contract_examples :
  normaliseA2AParts [mkPart "text" (Some "a") []; mkPart "text" (Some "b") []]
  = [mkPart "text" (Some "ab") []]
  ∧ normaliseA2AParts [mkPart "step-start" None [];
                       mkPart "text" (Some "foo") [("state", "done")];
                       mkPart "reasoning" (Some "hidden") [];
                       mkPart "text" None [];
                       mkPart "text" (Some " bar") [];
                       mkPart "step-end" None []]
    = [mkPart "text" (Some "foo bar") []]
  ∧ normaliseA2AParts [] = []
  ∧ Forall (λ p, part_type p ≠ "text")
           [mkPart "step-start" None []; mkPart "step-end" None []]
  ∧ normaliseA2AParts [mkPart "step-start" None []; mkPart "step-end" None []] = [].
Proof.
  assert (H : Forall (λ p, part_type p ≠ "text")
                [mkPart "step-start" None []; mkPart "step-end" None []]).
  { repeat constructor; simpl; discriminate. }
  split; [exact (proj1 (normaliseA2AParts_meets_contract _))|].
  split; [exact (proj1 (normaliseA2AParts_meets_contract _))|].
  split; [exact (proj2 (normaliseA2AParts_meets_contract []) (List.Forall_nil _))|].
  split; [exact H|].
  exact (proj2 (normaliseA2AParts_meets_contract _) H).
Defined.

(** C8: [normaliseA2AParts] is a fixed point on its own output. *)
Theorem normaliseA2AParts_idempotent (parts : list Part) :
  normaliseA2AParts (normaliseA2AParts parts) = normaliseA2AParts parts.
Proof.
  rewrite (normaliseA2AParts_unfold parts).
  destruct (truthy (textContent parts)) eqn:Ht; [|done].
  unfold normaliseA2AParts. simpl. by rewrite Ht.
Qed.

(** ** Running handler code *)

Lemma bind_unfold {A B} (m : M A) (f : A → M B) (w : World) :
  (m ≫= f) w =
  match m w with
  | (Val a, w') => f a w'
  | (Ret r, w') => (Ret r, w')
  | (Throw e, w') => (Throw e, w')
  end.
Proof. reflexivity. Qed.

(** Unfolds the monad and the primitive operations, leaving the state
    transformer they denote. *)
Ltac run :=
  unfold mbind, M_bind, mret, M_ret, return_, throw, tryCatch, lift_result,
    console_log, console_error, emit, newDate, gets, modify,
    getChatById, saveChat, getMessagesByChatId, saveMessages,
    getMessageCountByUserId, createStreamId, deleteChatById,
    generateUUID_call, createResumableStreamContext_call, resumableStream_call,
    set_globalStreamContext, set_store, add_console, tick_uuidCalls,
    tick_ctxAttempts;
  cbn.

Lemma add_console_add_console (es1 es2 : list ConsoleEntry) (w : World) :
  add_console es2 (add_console es1 w) = add_console (es1 ++ es2) w.
Proof. unfold add_console. simpl. by rewrite app_assoc. Qed.

Lemma logMessages_run (ms : list ChatMessage) :
  ∀ idx w, ∃ entries, logMessages idx ms w = (Val (), add_console entries w).
Proof.
  induction ms as [|m ms IH]; intros idx w; simpl.
  - exists []. unfold add_console. rewrite app_nil_r. by destruct w.
  - destruct (IH (S idx) (add_console [ConsoleLog ("Message " +:+ pretty idx +:+ ":")] w))
      as [entries Hrun].
    eexists. rewrite bind_unfold. unfold console_log, emit, modify.
    rewrite Hrun. by rewrite add_console_add_console.
Qed.

(** ** Completion callbacks *)

Lemma onFinish_run (selectedChatModel id : string) (ms : list ChatMessage) (w : World) :
  ∃ entries,
    onFinish selectedChatModel id ms w =
    (Val (),
     add_console entries
       (set_store (mkStore (chats (store w))
                           (messages (store w)
                              ++ map (finishedRow selectedChatModel id (clock w)) ms)
                           (streams (store w))) w)).
Proof.
  destruct (logMessages_run ms 0
              (add_console [ConsoleLog "Stream finished. Messages to save:"] w))
    as [entries Hlog].
  exists ([ConsoleLog "Stream finished. Messages to save:"] ++ entries
          ++ [ConsoleLog "Messages saved to DB"]).
  unfold onFinish. rewrite bind_unfold. unfold console_log at 1, emit, modify.
  rewrite bind_unfold, Hlog. run. by rewrite <- !app_assoc.
Qed.

Lemma onError_run (streamError : Exn) (w : World) :
  ∃ entries,
    onError streamError w = (Val "Oops, an error occurred!", add_console entries w).
Proof.
  unfold onError. run. destruct (exn_isError streamError); run;
    eexists; (f_equal; unfold add_console; f_equal; by rewrite <- ?app_assoc).
Qed.

Lemma textContent_normaliseA2AParts (parts : list Part) :
  textContent (normaliseA2AParts parts) = textContent parts.
Proof.
  rewrite normaliseA2AParts_unfold.
  destruct (truthy (textContent parts)) eqn:Ht.
  - unfold textContent at 1. rewrite filter_cons. simpl.
    unfold content. simpl. by rewrite append_empty_r.
  - apply truthy_false in Ht. by rewrite Ht.
Qed.

Lemma normaliseA2AParts_text_only (parts : list Part) :
  Forall (λ p, part_type p = "text" ∧ isStepMarker p = false) (normaliseA2AParts parts).
Proof.
  rewrite normaliseA2AParts_unfold.
  destruct (truthy (textContent parts)); repeat constructor.
Qed.

(** C2, as stated, fails: a reasoning part is visible content of the raw
    sequence, and the turn stored for the a2a model has lost it. *)
Lemma onFinish_a2a_drops_reasoning :
  let raw := [mkPart "step-start" None [];
              mkPart "reasoning" (Some "thinking") [];
              mkPart "text" (Some "answer") []] in
  let stored :=
    flat_map msg_parts
      (messages (store (exec (onFinish "a2a-model" "chat-1"
                                [mkChatMessage "m-1" "assistant" raw]) world0))) in
  stored = [textPart "answer"]
  ∧ visibleContent raw = "thinkinganswer"
  ∧ visibleContent stored ≠ visibleContent raw.
Proof. vm_compute. repeat split; discriminate. Qed.

(** C2, amended: when the selected model is the a2a model, [onFinish]
    completes and appends one row per message of the finished stream; every
    part of a stored row is a text part (so no step marker, and no reasoning
    part either, is stored), and the text content of the stored parts is the
    concatenation, in emission order, of the text content of the raw
    parts. *)
Theorem onFinish_a2a_stores_text_only (id : string) (ms : list ChatMessage) (w : World) :
  outcome (onFinish "a2a-model" id ms) w = Val ()
  ∧ ∃ rows,
      messages (store (exec (onFinish "a2a-model" id ms) w)) = messages (store w) ++ rows
      ∧ chats (store (exec (onFinish "a2a-model" id ms) w)) = chats (store w)
      ∧ Forall2 (λ m row,
                   msg_id row = cm_id m
                   ∧ msg_role row = cm_role m
                   ∧ msg_chatId row = id
                   ∧ Forall (λ p, part_type p = "text" ∧ isStepMarker p = false)
                            (msg_parts row)
                   ∧ textContent (msg_parts row) = textContent (cm_parts m))
                ms rows.
Proof.
  destruct (onFinish_run "a2a-model" id ms w) as [entries Hrun].
  unfold outcome, exec. rewrite Hrun. split; [done|].
  exists (map (finishedRow "a2a-model" id (clock w)) ms). simpl.
  repeat split.
  apply Forall2_fmap_r, Forall_Forall2_diag, Forall_forall. intros m _.
  unfold finishedRow. simpl.
  repeat split;
    [apply normaliseA2AParts_text_only | apply textContent_normaliseA2AParts].
Qed.

(** ** The resumable stream context *)

Lemma getStreamContext_cached (env : Env) (w : World) (ctx : ResumableStreamContext) :
  globalStreamContext w = Some ctx →
  getStreamContext env w = (Val (Some ctx), w).
Proof. intros Hg. unfold getStreamContext. run. rewrite Hg. run. by rewrite Hg. Qed.

Lemma getStreamContext_attempts (env : Env) (w : World) :
  globalStreamContext w = None →
  ctxAttempts (exec (getStreamContext env) w) = S (ctxAttempts w).
Proof.
  intros Hg. unfold exec, getStreamContext. run. rewrite Hg. run.
  destruct (createResumableStreamContext env (ctxAttempts w)) as [e|ctx]; run; [|done].
  destruct (exn_message e) as [message|]; run; [|done].
  by destruct (includes "REDIS_URL" message).
Qed.

Lemma getStreamContext_missing_config (env : Env) (w : World) (e : Exn) (message : string) :
  globalStreamContext w = None →
  createResumableStreamContext env (ctxAttempts w) = inl e →
  exn_message e = Some message →
  includes "REDIS_URL" message = true →
  getStreamContext env w
  = (Val None, add_console [ConsoleLog disabledNotice] (tick_ctxAttempts w)).
Proof.
  intros Hg Hcreate Hmsg Hincl. unfold getStreamContext. run.
  rewrite Hg. run. rewrite Hcreate. run. rewrite Hmsg, Hincl. run. by rewrite Hg.
Qed.

(** C5, as stated, fails: after an initialisation that failed for want of
    configuration nothing is remembered, and the next call initialises
    again. *)
Lemma getStreamContext_failure_not_cached :
  let w1 := exec (getStreamContext envNoRedis) world0 in
  let w2 := exec (getStreamContext envNoRedis) w1 in
  outcome (getStreamContext envNoRedis) world0 = Val None
  ∧ globalStreamContext w1 = None
  ∧ ctxAttempts w1 = 1%nat
  ∧ ctxAttempts w2 = 2%nat.
Proof. vm_compute. done. Qed.

(** C5, amended: an initialisation that fails because the configuration is
    missing is not fatal: [getStreamContext] returns [null], writes the
    notice to the console and leaves everything else as it was.  The failure
    is not cached: the global stays [null], and the next call attempts the
    initialisation again. *)
Theorem getStreamContext_missing_config_retried
    (env : Env) (w : World) (e : Exn) (message : string) :
  globalStreamContext w = None →
  createResumableStreamContext env (ctxAttempts w) = inl e →
  exn_message e = Some message →
  includes "REDIS_URL" message = true →
  let w1 := exec (getStreamContext env) w in
  outcome (getStreamContext env) w = Val None
  ∧ w1 = add_console [ConsoleLog disabledNotice] (tick_ctxAttempts w)
  ∧ globalStreamContext w1 = None
  ∧ ∀ env', ctxAttempts (exec (getStreamContext env') w1) = S (ctxAttempts w1).
Proof.
  intros Hg Hcreate Hmsg Hincl w1.
  assert (Hrun := getStreamContext_missing_config env w e message Hg Hcreate Hmsg Hincl).
  assert (Hw1 : w1 = add_console [ConsoleLog disabledNotice] (tick_ctxAttempts w)).
  { unfold w1, exec. by rewrite Hrun. }
  assert (Hg1 : globalStreamContext w1 = None) by by rewrite Hw1.
  repeat split; try done.
  - unfold outcome. by rewrite Hrun.
  - intros env'. by apply getStreamContext_attempts.
Qed.

Lemma getStreamContext_missing_config_retried_example :
  let w1 := exec (getStreamContext envNoRedis) world0 in
  outcome (getStreamContext envNoRedis) world0 = Val None
  ∧ w1 = add_console [ConsoleLog disabledNotice] (tick_ctxAttempts world0)
  ∧ globalStreamContext w1 = None
  ∧ ∀ env', ctxAttempts (exec (getStreamContext env') w1) = S (ctxAttempts w1).
Proof.
  apply (getStreamContext_missing_config_retried envNoRedis world0 missingRedisUrl
           "REDIS_URL environment variable is not set");
    reflexivity.
Defined.

(** ** Weakest-precondition rules and symbolic execution *)

Section wp_rules.

Context {A B : Type}.
Implicit Types (w : World) (Q : Outcome A → World → Prop).

Lemma wp_bind (m : M A) (f : A → M B) w (Q : Outcome B → World → Prop) :
  wp m w (after_bind f Q) → wp (m ≫= f) w Q.
Proof.
  unfold wp, after_bind, outcome, exec. rewrite bind_unfold.
  by destruct (m w) as [[a|r|e] w'].
Qed.

Lemma wp_tryCatch (body : M A) (handler : Exn → M A) w Q :
  wp body w (after_try handler Q) → wp (tryCatch body handler) w Q.
Proof.
  unfold wp, after_try, outcome, exec, tryCatch.
  by destruct (body w) as [[a|r|e] w'].
Qed.

Lemma wp_ret (a : A) w Q : Q (Val a) w → wp (mret a) w Q.
Proof. done. Qed.

Lemma wp_return (r : Response) w Q : Q (Ret r) w → wp (return_ r) w Q.
Proof. done. Qed.

Lemma wp_throw (e : Exn) w Q : Q (Throw e) w → wp (throw e) w Q.
Proof. done. Qed.

Lemma wp_gets (f : World → A) w Q : Q (Val (f w)) w → wp (gets f) w Q.
Proof. done. Qed.

End wp_rules.

Lemma wp_modify (f : World → World) (w : World) (Q : Outcome unit → World → Prop) :
  Q (Val ()) (f w) → wp (modify f) w Q.
Proof. done. Qed.

Lemma wp_generateUUID (env : Env) (w : World) (Q : Outcome string → World → Prop) :
  Q (Val (generateUUID env (uuidCalls w))) (tick_uuidCalls w) →
  wp (generateUUID_call env) w Q.
Proof. done. Qed.

Lemma wp_createResumableStreamContext (env : Env) (w : World)
    (Q : Outcome ResumableStreamContext → World → Prop) :
  wp (lift_result (createResumableStreamContext env (ctxAttempts w)))
     (tick_ctxAttempts w) Q →
  wp (createResumableStreamContext_call env) w Q.
Proof. done. Qed.

Lemma wp_deleteChatById (id : string) (w : World) (Q : Outcome (option Chat) → World → Prop) :
  Q (Val (chats (store w) !! id))
    (set_store (mkStore (delete id (chats (store w)))
                        (List.filter (λ m, negb (bool_decide (msg_chatId m = id)))
                                     (messages (store w)))
                        (streams (store w))) w) →
  wp (deleteChatById id) w Q.
Proof. done. Qed.

(** A property of what a call gives follows from a weakest precondition of
    the handler. *)
Lemma wp_call (handler : M Response) (w : World) (P : (Exn + Response) * World → Prop) :
  wp handler w (λ o w', P (escape o, w')) → P (call handler w).
Proof. done. Qed.

Lemma wp_exec {A} (m : M A) (w : World) (P : World → Prop) :
  wp m w (λ _ w', P w') → P (exec m w).
Proof. done. Qed.

(** Simplifies projections of a world built by the primitive updates. *)
Ltac simpl_world :=
  cbn [store globalStreamContext console clock ctxAttempts uuidCalls
       chats messages streams
       add_console set_store tick_uuidCalls tick_ctxAttempts] in *.

(** Settles a condition from the hypotheses at hand. *)
Ltac decided := solve [ lia | congruence | done ].

(** One step of symbolic execution: decomposes the program at the head of a
    [wp] goal, splitting on the scrutinee of a conditional. *)
Ltac wp_step :=
  lazymatch goal with
  | |- wp (mbind _ _) _ _ => apply wp_bind
  | |- wp (tryCatch _ _) _ _ => apply wp_tryCatch
  | |- wp (mret _) _ _ => apply wp_ret
  | |- wp (return_ _) _ _ => apply wp_return
  | |- wp (throw _) _ _ => apply wp_throw
  | |- wp (gets _) _ _ => apply wp_gets
  | |- wp (modify _) _ _ => apply wp_modify
  | |- wp (console_log _) _ _ => apply wp_modify
  | |- wp (console_error _) _ _ => apply wp_modify
  | |- wp (emit _) _ _ => apply wp_modify
  | |- wp newDate _ _ => apply wp_gets
  | |- wp (getChatById _) _ _ => apply wp_gets
  | |- wp (getMessagesByChatId _) _ _ => apply wp_gets
  | |- wp (getMessageCountByUserId _ _) _ _ => apply wp_gets
  | |- wp (saveChat _) _ _ => apply wp_modify
  | |- wp (saveMessages _) _ _ => apply wp_modify
  | |- wp (createStreamId _ _) _ _ => apply wp_modify
  | |- wp (set_globalStreamContext _) _ _ => apply wp_modify
  | |- wp (deleteChatById _) _ _ => apply wp_deleteChatById
  | |- wp (generateUUID_call _) _ _ => apply wp_generateUUID
  | |- wp (createResumableStreamContext_call _) _ _ =>
      apply wp_createResumableStreamContext
  | |- wp (lift_result ?r) _ _ => unfold lift_result
  | |- wp (resumableStream_call _ _ _) _ _ => unfold resumableStream_call
  | |- wp (getStreamContext _) _ _ => unfold getStreamContext
  | |- wp (POST_catch _) _ _ => unfold POST_catch
  | |- wp (if bool_decide ?P then _ else _) _ _ =>
      first [ rewrite (bool_decide_eq_true_2 P) by decided
            | rewrite (bool_decide_eq_false_2 P) by decided
            | let E := fresh "Hif" in destruct (bool_decide P) eqn:E ]
  | |- wp (if ?b then _ else _) _ _ =>
      let E := fresh "Hif" in destruct b eqn:E
  | |- wp (match ?x with _ => _ end) _ _ =>
      let E := fresh "Hcase" in destruct x eqn:E
  | |- wp (let _ := _ in _) _ _ => cbv zeta
  | |- after_bind _ _ _ _ => unfold after_bind at 1; cbv beta iota
  | |- after_try _ _ _ _ => unfold after_try at 1; cbv beta iota
  end;
  simpl_world; simplify_eq.

Ltac wp_run := repeat wp_step.

(** ** [DELETE] *)

Lemma missing_Some (id : string) : id ≠ "" → missing (Some id) = false.
Proof. by destruct id. Qed.

Lemma DELETE_reaches_ownership_check
    (env : Env) (request : Request) (w : World) (id : string) (user : User)
    (Q : Outcome Response → World → Prop) :
  req_id request = Some id →
  id ≠ "" →
  auth env ≫= session_user = Some user →
  wp (chat ← getChatById id;
      userId ← match chat with
               | None => throw (typeError "userId")
               | Some chat => mret (chat_userId chat)
               end;
      (if bool_decide (userId ≠ user_id user)
       then return_ (toResponse "forbidden:chat")
       else mret ());;
      deletedChat ← deleteChatById id;
      return_ (JsonResponse 200 deletedChat)) w Q →
  wp (DELETE env request) w Q.
Proof.
  intros Hid Hne Hauth Hrest. unfold DELETE.
  rewrite Hid, (missing_Some id Hne), Hauth. simpl default.
  by do 5 wp_step.
Qed.

(** C7: a delete request for a conversation owned by one user, made by a
    signed-in user who is not its owner, is answered with the forbidden
    response, and nothing changes: the conversation and its turns stay
    stored as they were. *)
Theorem DELETE_by_other_user_forbidden
    (env : Env) (request : Request) (w : World) (id : string)
    (chat : Chat) (user : User) :
  req_id request = Some id →
  id ≠ "" →
  auth env ≫= session_user = Some user →
  chats (store w) !! id = Some chat →
  chat_userId chat ≠ user_id user →
  call (DELETE env request) w = (inr (ErrorResponse "forbidden:chat"), w).
Proof.
  intros Hid Hne Hauth Hchat Hother.
  pattern (call (DELETE env request) w). apply wp_call.
  apply (DELETE_reaches_ownership_check env request w id user); [done..|].
  do 4 wp_step. rewrite Hchat. do 3 wp_step.
  rewrite bool_decide_eq_true_2 by done. by wp_step.
Qed.

Lemma DELETE_by_other_user_forbidden_example :
  call (DELETE (envOf bob 20) (mkRequest (BodyUnreadable missingRedisUrl) (Some "chat-1")))
       aliceWorld
  = (inr (ErrorResponse "forbidden:chat"), aliceWorld).
Proof.
  apply (DELETE_by_other_user_forbidden _ _ _ "chat-1" aliceChat bob);
    [reflexivity | discriminate | reflexivity | reflexivity | discriminate].
Defined.

(** C9: a delete request by a signed-in user for an id that no stored
    conversation has reaches the ownership check, where reading [userId] of
    the absent record raises a [TypeError]; [DELETE] has no handler for it,
    so the call yields no response at all, structured or otherwise, and the
    exception escapes.  The store is left as it was. *)
Theorem DELETE_missing_chat_raises
    (env : Env) (request : Request) (w : World) (id : string) (user : User) :
  req_id request = Some id →
  id ≠ "" →
  auth env ≫= session_user = Some user →
  chats (store w) !! id = None →
  call (DELETE env request) w = (inl (typeError "userId"), w).
Proof.
  intros Hid Hne Hauth Hchat.
  pattern (call (DELETE env request) w). apply wp_call.
  apply (DELETE_reaches_ownership_check env request w id user); [done..|].
  do 4 wp_step. rewrite Hchat. by do 2 wp_step.
Qed.

Lemma DELETE_missing_chat_raises_example :
  call (DELETE (envOf bob 20) (mkRequest (BodyUnreadable missingRedisUrl) (Some "chat-2")))
       aliceWorld
  = (inl (typeError "userId"), aliceWorld).
Proof.
  apply (DELETE_missing_chat_raises _ _ _ "chat-2" bob);
    [reflexivity | discriminate | reflexivity | reflexivity].
Defined.

(** ** [POST] *)

(** Closes the paths that the hypotheses on the gate rule out. *)
Ltac gate_contradiction :=
  repeat match goal with
         | H : bool_decide _ = true |- _ => apply bool_decide_eq_true in H
         | H : bool_decide _ = false |- _ => apply bool_decide_eq_false in H
         | H : ∃ _, _ |- _ => destruct H
         end;
  first [ lia | congruence | done ].

Lemma POST_saves_user_turn
    (env : Env) (request : Request) (w : World) (body : PostRequestBody) (user : User) :
  passesGate env request w body user →
  messages (store (exec (POST env request) w))
  = messages (store w) ++ [userTurn body (clock w)].
Proof.
  intros (Hbody & Hauth & Hcount & Hchat).
  pattern (exec (POST env request) w). apply wp_exec. unfold POST.
  rewrite Hbody.
  wp_run; try gate_contradiction.
  all: unfold userTurn, cleanedParts;
    match goal with H : a2a _ = _ |- _ => by rewrite H end.
Qed.

(** C10: for a request that passes the gate, [POST] appends exactly one row
    for the user turn.  With the a2a model its parts are
    [normaliseA2AParts] of the parts received, hence the empty sequence when
    none of them is a text fragment; with any other model they are the parts
    received, unchanged. *)
Theorem POST_user_turn_parts
    (env : Env) (request : Request) (w : World) (body : PostRequestBody) (user : User) :
  passesGate env request w body user →
  let received := cm_parts (body_message body) in
  ∃ parts,
    messages (store (exec (POST env request) w))
    = messages (store w)
      ++ [mkDBMessage (body_id body) (cm_id (body_message body)) "user" parts []
                      (clock w)]
    ∧ (body_selectedChatModel body = "a2a-model" →
       parts = normaliseA2AParts received
       ∧ (Forall (λ p, part_type p ≠ "text") received → parts = []))
    ∧ (body_selectedChatModel body ≠ "a2a-model" → parts = received).
Proof.
  intros Hgate received. exists (cleanedParts body).
  split; [exact (POST_saves_user_turn env request w body user Hgate)|].
  unfold cleanedParts, a2a. split.
  - intros Hmodel. rewrite bool_decide_eq_true_2 by done.
    split; [done|]. apply normaliseA2AParts_no_text.
  - intros Hmodel. by rewrite bool_decide_eq_false_2.
Qed.

Lemma a2aRequest_passesGate :
  passesGate (envOf alice 20) a2aRequest aliceWorld
             (mkPostRequestBody "chat-1" markersOnly "a2a-model" "private") alice.
Proof.
  split; [reflexivity|]. split; [reflexivity|].
  split; [vm_compute; discriminate | vm_compute; reflexivity].
Defined.

Lemma POST_user_turn_parts_example :
  ∃ parts,
    messages (store (exec (POST (envOf alice 20) a2aRequest) aliceWorld))
    = messages (store aliceWorld) ++ [mkDBMessage "chat-1" "m-2" "user" parts [] 1000]
    ∧ parts = [].
Proof.
  destruct (POST_user_turn_parts (envOf alice 20) a2aRequest aliceWorld _ alice
              a2aRequest_passesGate) as (parts & Hstored & Ha2a & _).
  exists parts. split; [exact Hstored|].
  apply Ha2a; [reflexivity|].
  repeat constructor; discriminate.
Defined.

(** C6: while the resumable context has no backing (no context has been
    created, and creating one fails for want of configuration), [POST] never
    raises and never answers with a resumable stream; a request that passes
    the gate is answered with the plain stream over the conversation, and
    the fallback is written to the console. *)
Theorem POST_without_resumable_backing
    (env : Env) (request : Request) (w : World) (e : Exn) (message : string) :
  globalStreamContext w = None →
  createResumableStreamContext env (ctxAttempts w) = inl e →
  exn_message e = Some message →
  includes "REDIS_URL" message = true →
  (∃ r, fst (call (POST env request) w) = inr r
        ∧ ∀ streamId stream, r ≠ StreamResponse (Some streamId) stream)
  ∧ ∀ body user,
      passesGate env request w body user →
      fst (call (POST env request) w) = inr (StreamResponse None (streamFor body w))
      ∧ ConsoleLog disabledNotice ∈ console (snd (call (POST env request) w)).
Proof.
  intros Hg Hcreate Hmsg Hincl. split.
  - pattern (call (POST env request) w). apply wp_call. unfold POST.
    wp_run; cbn; (eexists; split; [reflexivity | by intros ??]).
  - intros body user (Hbody & Hauth & Hcount & Hchat).
    pattern (call (POST env request) w). apply wp_call. unfold POST.
    rewrite Hbody.
    wp_run; try gate_contradiction.
    all: cbn; split; [done|].
    all: apply elem_of_app; right; by apply list_elem_of_singleton.
Qed.

Lemma POST_without_resumable_backing_example :
  fst (call (POST (envOf alice 20) a2aRequest) aliceWorld)
  = inr (StreamResponse None
           (streamFor (mkPostRequestBody "chat-1" markersOnly "a2a-model" "private")
                      aliceWorld))
  ∧ ConsoleLog disabledNotice
    ∈ console (snd (call (POST (envOf alice 20) a2aRequest) aliceWorld)).
Proof.
  exact (proj2 (POST_without_resumable_backing (envOf alice 20) a2aRequest aliceWorld
                  missingRedisUrl "REDIS_URL environment variable is not set"
                  eq_refl eq_refl eq_refl eq_refl)
               _ alice a2aRequest_passesGate).
Defined.

(** Brings the console of a final world to the form [console w ++ entries]. *)
Ltac console_entries :=
  simpl_world; rewrite <- ?app_assoc; cbn [app].

(** Decides membership of a console entry in an explicit list of entries. *)
Ltac decide_elem :=
  lazymatch goal with
  | |- _ ∈ _ => apply (bool_decide_unpack _); vm_compute; exact I
  | |- _ ∈ _ → False => apply (bool_decide_eq_false_1 _); vm_compute; reflexivity
  end.

(** C3, as stated, fails: a caller whose count is exactly the quota is not
    rejected; the message is answered with a stream and its turn is
    stored. *)
Lemma POST_at_quota_not_rejected :
  countRecent (store aliceWorld) (clock aliceWorld) (user_id alice) 24 = 2
  ∧ maxMessagesPerDay (entitlementsByUserType (envOf alice 2) (user_type alice)) = 2
  ∧ fst (call (POST (envOf alice 2) chatRequest) aliceWorld)
    = inr (StreamResponse None
             (streamFor (mkPostRequestBody "chat-1" greeting "chat-model" "private")
                        aliceWorld))
  ∧ messages (store (snd (call (POST (envOf alice 2) chatRequest) aliceWorld)))
    = [aliceTurn 0 10; aliceTurn 1 20;
       mkDBMessage "chat-1" "m-2" "user" [textPart "hi"] [] 1000].
Proof. vm_compute. done. Qed.

(** C3, amended: the gate rejects if and only if the count exceeds the
    quota.  A caller whose count over the trailing 24 hours is greater than
    the quota of their tier is answered with the rate-limit response and
    nothing is stored; a caller whose count is at most the quota (exactly at
    it, or below) is not rejected by the gate: the handler goes on to
    resolve the conversation and, when that succeeds, stores the turn. *)
Theorem POST_rate_limit_gate
    (env : Env) (request : Request) (w : World) (body : PostRequestBody) (user : User) :
  req_body request = BodyOk body →
  auth env ≫= session_user = Some user →
  let count := countRecent (store w) (clock w) (user_id user) 24 in
  let quota := maxMessagesPerDay (entitlementsByUserType env (user_type user)) in
  (quota < count →
   call (POST env request) w
   = (inr (ErrorResponse "rate_limit:chat"), add_console rejectedLog w))
  ∧ (∃ entries,
       console (exec (POST env request) w) = console w ++ entries
       ∧ (ConsoleLog "User exceeded message limit" ∈ entries ↔ quota < count)
       ∧ (count ≤ quota → ConsoleLog "Existing chat:" ∈ entries))
  ∧ (passesGate env request w body user →
     messages (store (exec (POST env request) w))
     = messages (store w) ++ [userTurn body (clock w)]).
Proof.
  intros Hbody Hauth count quota. subst count quota.
  split; [|split; [|apply POST_saves_user_turn]].
  - intros Hover.
    pattern (call (POST env request) w). apply wp_call. unfold POST.
    rewrite Hbody. wp_run.
    cbn. f_equal. unfold add_console, rejectedLog. cbn.
    by rewrite <- !app_assoc.
  - pattern (exec (POST env request) w). apply wp_exec. unfold POST.
    rewrite Hbody. wp_run.
    all: console_entries; eexists; (split; [reflexivity|]).
    all: split; [split; intros Hin|intros Hin].
    all: first [ decide_elem
               | exfalso; revert Hin; decide_elem
               | gate_contradiction ].
Qed.

Lemma POST_rate_limit_gate_example :
  call (POST (envOf alice 1) chatRequest) aliceWorld
  = (inr (ErrorResponse "rate_limit:chat"), add_console rejectedLog aliceWorld)
  ∧ (∃ entries,
       console (exec (POST (envOf alice 2) chatRequest) aliceWorld)
       = console aliceWorld ++ entries
       ∧ (ConsoleLog "User exceeded message limit" ∉ entries)
       ∧ (ConsoleLog "Existing chat:" ∈ entries))
  ∧ messages (store (exec (POST (envOf alice 2) chatRequest) aliceWorld))
    = messages (store aliceWorld)
      ++ [userTurn (mkPostRequestBody "chat-1" greeting "chat-model" "private") 1000].
Proof.
  split; [|split].
  - apply (POST_rate_limit_gate (envOf alice 1) chatRequest aliceWorld
             (mkPostRequestBody "chat-1" greeting "chat-model" "private") alice
             eq_refl eq_refl).
    reflexivity.
  - destruct (POST_rate_limit_gate (envOf alice 2) chatRequest aliceWorld
                (mkPostRequestBody "chat-1" greeting "chat-model" "private") alice
                eq_refl eq_refl) as (_ & (entries & Hconsole & Hiff & Hpassed) & _).
    exists entries. split; [exact Hconsole|]. split.
    + intros Hin. apply Hiff in Hin. vm_compute in Hin. discriminate.
    + apply Hpassed. vm_compute. discriminate.
  - apply (POST_rate_limit_gate (envOf alice 2) chatRequest aliceWorld
             (mkPostRequestBody "chat-1" greeting "chat-model" "private") alice
             eq_refl eq_refl).
    split; [reflexivity|]. split; [reflexivity|].
    split; [vm_compute; discriminate | vm_compute; reflexivity].
Defined.

(** * Further properties *)

(** ** The normaliser on concatenated and padded sequences *)

Lemma append_assoc (s t u : string) : (s +:+ t) +:+ u = s +:+ (t +:+ u).
Proof.
  induction s as [|c s IH]; [done|].
  change (String c ((s +:+ t) +:+ u) = String c (s +:+ (t +:+ u))).
  by rewrite IH.
Qed.

Lemma append_empty_iff (s t : string) : s +:+ t = "" ↔ s = "" ∧ t = "".
Proof.
  split.
  - destruct s as [|c s].
    { change (t = "" → "" = "" ∧ t = ""). by intros ->. }
    change (String c (s +:+ t) = "" → String c s = "" ∧ t = ""). discriminate.
  - by intros [-> ->].
Qed.

Lemma concatStrings_app (xs ys : list string) :
  concatStrings (xs ++ ys) = concatStrings xs +:+ concatStrings ys.
Proof.
  induction xs as [|x xs IH]; [done|].
  simpl. by rewrite IH, append_assoc.
Qed.

Lemma concatStrings_empty (xs : list string) :
  concatStrings xs = "" ↔ Forall (λ x, x = "") xs.
Proof.
  induction xs as [|x xs IH]; simpl.
  - split; [constructor | done].
  - rewrite append_empty_iff, IH, Forall_cons. done.
Qed.

Lemma textContent_app (xs ys : list Part) :
  textContent (xs ++ ys) = textContent xs +:+ textContent ys.
Proof. unfold textContent. by rewrite filter_app, map_app, concatStrings_app. Qed.

Lemma textContent_cons_other (p : Part) (ps : list Part) :
  part_type p ≠ "text" → textContent (p :: ps) = textContent ps.
Proof. intros Hp. unfold textContent. by rewrite filter_cons_False. Qed.

Lemma normaliseA2AParts_textContent (xs ys : list Part) :
  textContent xs = textContent ys → normaliseA2AParts xs = normaliseA2AParts ys.
Proof. intros H. by rewrite !normaliseA2AParts_unfold, H. Qed.

(** X1: normalising a sequence gives the same result as normalising its two
    halves separately and normalising the two results put together: chunks
    of a reply can be merged piecewise. *)
Theorem normaliseA2AParts_app (xs ys : list Part) :
  normaliseA2AParts (xs ++ ys)
  = normaliseA2AParts (normaliseA2AParts xs ++ normaliseA2AParts ys).
Proof.
  apply normaliseA2AParts_textContent.
  by rewrite !textContent_app, !textContent_normaliseA2AParts.
Qed.

(** X2: a fragment that is not a text fragment has no influence on the
    result, wherever it stands in the sequence and whatever it carries. *)
Theorem normaliseA2AParts_skips_other (xs ys : list Part) (p : Part) :
  part_type p ≠ "text" →
  normaliseA2AParts (xs ++ p :: ys) = normaliseA2AParts (xs ++ ys).
Proof.
  intros Hp. apply normaliseA2AParts_textContent.
  by rewrite !textContent_app, textContent_cons_other.
Qed.

Lemma normaliseA2AParts_skips_other_example :
  normaliseA2AParts
    ([textPart "a"] ++ mkPart "reasoning" (Some "hidden") [] :: [textPart "b"])
  = normaliseA2AParts ([textPart "a"] ++ [textPart "b"]).
Proof.
  apply (normaliseA2AParts_skips_other [textPart "a"] [textPart "b"]
           (mkPart "reasoning" (Some "hidden") [])).
  discriminate.
Defined.

Lemma textContent_empty_iff (parts : list Part) :
  textContent parts = ""
  ↔ Forall (λ p, part_type p = "text" → content p = "") parts.
Proof.
  induction parts as [|p ps IH].
  - split; [constructor | done].
  - rewrite Forall_cons, <- IH.
    destruct (decide (part_type p = "text")) as [Ht|Ht].
    + change (p :: ps) with ([p] ++ ps). rewrite textContent_app.
      unfold textContent at 1. rewrite filter_cons_True by done.
      simpl. rewrite append_empty_r, append_empty_iff. tauto.
    + rewrite textContent_cons_other by done. tauto.
Qed.

(** X3: the result is empty exactly when every text fragment of the input
    carries the empty string or no text at all. *)
Theorem normaliseA2AParts_empty_iff (parts : list Part) :
  normaliseA2AParts parts = []
  ↔ Forall (λ p, part_type p = "text" → content p = "") parts.
Proof.
  rewrite normaliseA2AParts_unfold, <- textContent_empty_iff.
  destruct (truthy (textContent parts)) eqn:Ht.
  - split; [done|]. intros He. apply truthy_false in He. congruence.
  - apply truthy_false in Ht. done.
Qed.

Lemma normaliseA2AParts_empty_iff_example :
  normaliseA2AParts [mkPart "text" None []; mkPart "text" (Some "") [("state", "done")]] = [].
Proof.
  apply normaliseA2AParts_empty_iff.
  repeat constructor.
Defined.

(** X4: a single part is returned as it was given exactly when it is a text
    part with a non-empty text and no other property; a text part that
    carries anything else comes back stripped of it. *)
Theorem normaliseA2AParts_singleton_fixed (p : Part) :
  normaliseA2AParts [p] = [p]
  ↔ part_type p = "text"
    ∧ part_props p = []
    ∧ ∃ text, part_text p = Some text ∧ text ≠ "".
Proof.
  destruct p as [type text props]. unfold normaliseA2AParts, isTextPart. simpl.
  destruct (decide (type = "text")) as [->|Hne].
  - simpl. destruct text as [text|]; simpl.
    + destruct text as [|c text]; simpl.
      * split; [done|]. intros (_ & _ & t & [= <-] & Ht). done.
      * unfold textPart. split.
        -- intros [= ->]. eauto.
        -- intros (_ & -> & _). done.
    + split; [done|]. intros (_ & _ & t & [=] & _).
  - rewrite bool_decide_eq_false_2 by done. simpl.
    split; [done|]. intros (? & _). done.
Qed.

Lemma normaliseA2AParts_singleton_fixed_example :
  normaliseA2AParts [textPart "hello"] = [textPart "hello"]
  ∧ normaliseA2AParts [mkPart "text" (Some "hello") [("state", "done")]]
    ≠ [mkPart "text" (Some "hello") [("state", "done")]].
Proof.
  split.
  - apply normaliseA2AParts_singleton_fixed. simpl.
    split; [reflexivity|]. split; [reflexivity|].
    exists "hello". split; [reflexivity | discriminate].
  - intros H. apply normaliseA2AParts_singleton_fixed in H.
    destruct H as (_ & H & _). discriminate.
Defined.


(** ** [getStreamContext]: success and the other failures *)

(** X5: a successful initialisation is cached: the call returns the new
    context and stores it in the global, touching neither the store nor the
    console, and from then on every call returns that same context without
    attempting anything, whatever the environment has become. *)
Theorem getStreamContext_success_cached
    (env : Env) (w : World) (ctx : ResumableStreamContext) :
  globalStreamContext w = None →
  createResumableStreamContext env (ctxAttempts w) = inr ctx →
  let w1 := exec (getStreamContext env) w in
  outcome (getStreamContext env) w = Val (Some ctx)
  ∧ globalStreamContext w1 = Some ctx
  ∧ ctxAttempts w1 = S (ctxAttempts w)
  ∧ store w1 = store w
  ∧ console w1 = console w
  ∧ ∀ env', getStreamContext env' w1 = (Val (Some ctx), w1).
Proof.
  intros Hg Hcreate w1.
  assert (Hrun : getStreamContext env w
                 = (Val (Some ctx),
                    mkWorld (store w) (Some ctx) (console w) (clock w)
                            (S (ctxAttempts w)) (uuidCalls w))).
  { unfold getStreamContext. run. rewrite Hg. run. by rewrite Hcreate. }
  unfold w1, outcome, exec. rewrite Hrun. simpl.
  repeat split.
Qed.

Lemma getStreamContext_success_cached_example :
  let env := envWith (Some alice) 20 (inr "New chat") (inr readyContext) None in
  let w1 := exec (getStreamContext env) world0 in
  outcome (getStreamContext env) world0 = Val (Some readyContext)
  ∧ globalStreamContext w1 = Some readyContext
  ∧ ctxAttempts w1 = 1%nat
  ∧ store w1 = store world0
  ∧ console w1 = console world0
  ∧ ∀ env', getStreamContext env' w1 = (Val (Some readyContext), w1).
Proof.
  apply (getStreamContext_success_cached
           (envWith (Some alice) 20 (inr "New chat") (inr readyContext) None)
           world0 readyContext);
    reflexivity.
Defined.

(** X6: a failed initialisation whose error message does not mention
    REDIS_URL is swallowed as well: the error itself is written to the
    console with [console.error] and [null] is returned. *)
Theorem getStreamContext_other_failure_logged
    (env : Env) (w : World) (e : Exn) (message : string) :
  globalStreamContext w = None →
  createResumableStreamContext env (ctxAttempts w) = inl e →
  exn_message e = Some message →
  includes "REDIS_URL" message = false →
  getStreamContext env w
  = (Val None, add_console [ConsoleErrorValue e] (tick_ctxAttempts w)).
Proof.
  intros Hg Hcreate Hmsg Hincl. unfold getStreamContext. run.
  rewrite Hg. run. rewrite Hcreate. run. rewrite Hmsg, Hincl. run. by rewrite Hg.
Qed.

Lemma getStreamContext_other_failure_logged_example :
  getStreamContext
    (envWith (Some alice) 20 (inr "New chat") (inl connectionRefused) None) world0
  = (Val None, add_console [ConsoleErrorValue connectionRefused] (tick_ctxAttempts world0)).
Proof.
  apply (getStreamContext_other_failure_logged _ world0 connectionRefused
           "connect ECONNREFUSED 127.0.0.1:6379");
    reflexivity.
Defined.

(** X7: when what the initialisation throws has no [message], the [catch]
    block itself fails on [error.message.includes]: a [TypeError] leaves
    [getStreamContext], with nothing written to the console and the global
    still [null]. *)
Theorem getStreamContext_bare_throw_raises (env : Env) (w : World) (e : Exn) :
  globalStreamContext w = None →
  createResumableStreamContext env (ctxAttempts w) = inl e →
  exn_message e = None →
  getStreamContext env w = (Throw (typeError "includes"), tick_ctxAttempts w).
Proof.
  intros Hg Hcreate Hmsg. unfold getStreamContext. run.
  rewrite Hg. run. rewrite Hcreate. run. rewrite Hmsg. run. by rewrite Hg.
Qed.

Lemma getStreamContext_bare_throw_raises_example :
  getStreamContext
    (envWith (Some alice) 20 (inr "New chat") (inl bareThrow) None) world0
  = (Throw (typeError "includes"), tick_ctxAttempts world0).
Proof.
  apply (getStreamContext_bare_throw_raises _ world0 bareThrow); reflexivity.
Defined.

(** ** The completion callbacks on any model *)


(** X9: for a model other than the a2a model the parts of each message are
    stored exactly as the stream delivered them, structural markers and
    reasoning included. *)
Theorem onFinish_other_model_keeps_parts
    (selectedChatModel id : string) (ms : list ChatMessage) (w : World) :
  selectedChatModel ≠ "a2a-model" →
  ∃ rows,
    messages (store (exec (onFinish selectedChatModel id ms) w))
    = messages (store w) ++ rows
    ∧ map msg_parts rows = map cm_parts ms.
Proof.
  intros Hmodel.
  destruct (onFinish_run selectedChatModel id ms w) as [entries Hrun].
  unfold exec. rewrite Hrun. simpl.
  exists (map (finishedRow selectedChatModel id (clock w)) ms).
  split; [done|]. rewrite map_map. apply map_ext. intros m.
  unfold finishedRow, a2a. simpl. by rewrite bool_decide_eq_false_2.
Qed.

Lemma onFinish_other_model_keeps_parts_example :
  ∃ rows,
    messages (store (exec (onFinish "chat-model" "chat-1"
                             [mkChatMessage "m-3" "assistant"
                                [mkPart "step-start" None []; textPart "hi"]])
                          aliceWorld))
    = messages (store aliceWorld) ++ rows
    ∧ map msg_parts rows = [[mkPart "step-start" None []; textPart "hi"]].
Proof.
  apply (onFinish_other_model_keeps_parts "chat-model" "chat-1"
           [mkChatMessage "m-3" "assistant"
              [mkPart "step-start" None []; textPart "hi"]] aliceWorld).
  discriminate.
Defined.

(** X10: [onError] answers every error with the same fixed sentence and
    does nothing but write to the console: the store and the stream context
    are as before. *)
Theorem onError_generic (streamError : Exn) (w : World) :
  outcome (onError streamError) w = Val "Oops, an error occurred!"
  ∧ store (exec (onError streamError) w) = store w
  ∧ globalStreamContext (exec (onError streamError) w) = globalStreamContext w
  ∧ ConsoleError "Error within createUIMessageStream:"
    ∈ console (exec (onError streamError) w).
Proof.
  unfold outcome, exec, onError. run.
  destruct (exn_isError streamError); run; repeat split;
    rewrite ?elem_of_app, list_elem_of_singleton; tauto.
Qed.


(** ** [POST]: what escapes, what is rejected, what is stored *)

Lemma bind_never_throws {A B} (m : M A) (f : A → M B) :
  never_throws m → (∀ a, never_throws (f a)) → never_throws (m ≫= f).
Proof.
  intros Hm Hf w e. unfold outcome. rewrite bind_unfold.
  specialize (Hm w). unfold outcome in Hm.
  destruct (m w) as [[a|r|e'] w']; simpl in *.
  - apply (Hf a w' e).
  - discriminate.
  - by destruct (Hm e').
Qed.

Lemma tryCatch_never_throws {A} (body : M A) (handler : Exn → M A) :
  (∀ e, never_throws (handler e)) → never_throws (tryCatch body handler).
Proof.
  intros Hh w e. unfold outcome, tryCatch.
  destruct (body w) as [[a|r|e'] w']; simpl; try discriminate.
  apply (Hh e' w' e).
Qed.

Lemma POST_catch_never_throws (error : Exn) : never_throws (POST_catch error).
Proof.
  intros w e. unfold outcome, POST_catch.
  destruct (exn_chatSDK error); [discriminate|].
  destruct (exn_isError error), (exn_response error), (exn_errors error);
    run; discriminate.
Qed.

(** X11: no exception ever leaves [POST]: whatever the request, the
    environment and the state, the call ends with a response. *)
Theorem POST_never_raises (env : Env) (request : Request) (w : World) :
  ∃ r, fst (call (POST env request) w) = inr r.
Proof.
  assert (Hnever : never_throws (POST env request)).
  { unfold POST. apply bind_never_throws.
    - apply tryCatch_never_throws. intros e w' e'. unfold outcome. run. discriminate.
    - intros requestBody. apply tryCatch_never_throws, POST_catch_never_throws. }
  specialize (Hnever w). unfold outcome in Hnever. unfold call, escape.
  destruct (fst (POST env request w)) as [r|r|e]; simpl; eauto.
  by destruct (Hnever e).
Qed.

(** X12: a request whose body cannot be read or does not fit the schema is
    answered with the bad-request response before anything else is looked
    at (who is calling, their quota, the conversation), and only the
    console changes. *)
Theorem POST_malformed_body (env : Env) (request : Request) (w : World) :
  (∀ body, req_body request ≠ BodyOk body) →
  fst (call (POST env request) w) = inr (ErrorResponse "bad_request:api")
  ∧ only_console_differs w (snd (call (POST env request) w)).
Proof.
  intros Hbody.
  pattern (call (POST env request) w). apply wp_call. unfold POST.
  destruct (req_body request) as [e|e|body] eqn:Hb; [| |by destruct (Hbody body)].
  all: wp_run; by cbn.
Qed.

Lemma POST_malformed_body_example :
  fst (call (POST (envOf alice 20) (mkRequest (BodyInvalid bareThrow) None)) aliceWorld)
  = inr (ErrorResponse "bad_request:api")
  ∧ only_console_differs aliceWorld
      (snd (call (POST (envOf alice 20) (mkRequest (BodyInvalid bareThrow) None))
                 aliceWorld)).
Proof.
  apply (POST_malformed_body (envOf alice 20) (mkRequest (BodyInvalid bareThrow) None)
           aliceWorld).
  discriminate.
Defined.

(** X13: a well-formed request from a caller who is not signed in is
    answered with the unauthorized response, and only the console
    changes. *)
Theorem POST_unauthenticated
    (env : Env) (request : Request) (w : World) (body : PostRequestBody) :
  req_body request = BodyOk body →
  auth env ≫= session_user = None →
  fst (call (POST env request) w) = inr (ErrorResponse "unauthorized:chat")
  ∧ only_console_differs w (snd (call (POST env request) w)).
Proof.
  intros Hbody Hauth.
  pattern (call (POST env request) w). apply wp_call. unfold POST.
  rewrite Hbody. wp_run. by cbn.
Qed.

Lemma POST_unauthenticated_example :
  fst (call (POST envNoRedis chatRequest) aliceWorld)
  = inr (ErrorResponse "unauthorized:chat")
  ∧ only_console_differs aliceWorld (snd (call (POST envNoRedis chatRequest) aliceWorld)).
Proof.
  apply (POST_unauthenticated envNoRedis chatRequest aliceWorld
           (mkPostRequestBody "chat-1" greeting "chat-model" "private"));
    reflexivity.
Defined.

(** X14: a caller within quota who posts to a stored conversation of
    somebody else is answered with the forbidden response; the message is
    not stored and no stream session is recorded. *)
Theorem POST_foreign_chat_forbidden
    (env : Env) (request : Request) (w : World) (body : PostRequestBody)
    (user : User) (chat : Chat) :
  req_body request = BodyOk body →
  auth env ≫= session_user = Some user →
  countRecent (store w) (clock w) (user_id user) 24
    ≤ maxMessagesPerDay (entitlementsByUserType env (user_type user)) →
  chats (store w) !! body_id body = Some chat →
  chat_userId chat ≠ user_id user →
  fst (call (POST env request) w) = inr (ErrorResponse "forbidden:chat")
  ∧ only_console_differs w (snd (call (POST env request) w)).
Proof.
  intros Hbody Hauth Hcount Hchat Hother.
  pattern (call (POST env request) w). apply wp_call. unfold POST.
  rewrite Hbody. wp_run. by cbn.
Qed.

Lemma POST_foreign_chat_forbidden_example :
  fst (call (POST (envOf bob 20) chatRequest) aliceWorld)
  = inr (ErrorResponse "forbidden:chat")
  ∧ only_console_differs aliceWorld (snd (call (POST (envOf bob 20) chatRequest) aliceWorld)).
Proof.
  apply (POST_foreign_chat_forbidden (envOf bob 20) chatRequest aliceWorld
           (mkPostRequestBody "chat-1" greeting "chat-model" "private") bob aliceChat).
  - reflexivity.
  - reflexivity.
  - vm_compute. discriminate.
  - reflexivity.
  - discriminate.
Defined.

(** X15: when the conversation is new and generating its title fails, the
    request ends with the response of the [catch] block (the code of the
    error if it is a [ChatSDKError], the offline response otherwise) and
    nothing has been stored: no conversation, no turn, no stream session. *)
Theorem POST_title_failure
    (env : Env) (request : Request) (w : World) (body : PostRequestBody)
    (user : User) (e : Exn) :
  req_body request = BodyOk body →
  auth env ≫= session_user = Some user →
  countRecent (store w) (clock w) (user_id user) 24
    ≤ maxMessagesPerDay (entitlementsByUserType env (user_type user)) →
  chats (store w) !! body_id body = None →
  generateTitleFromUserMessage env (body_message body) = inl e →
  fst (call (POST env request) w) = inr (ErrorResponse (caughtCode e))
  ∧ only_console_differs w (snd (call (POST env request) w)).
Proof.
  intros Hbody Hauth Hcount Hchat Htitle.
  pattern (call (POST env request) w). apply wp_call. unfold POST.
  rewrite Hbody. wp_run.
  all: unfold caughtCode;
    match goal with H : exn_chatSDK _ = _ |- _ => rewrite H end; by cbn.
Qed.

Lemma POST_title_failure_example :
  let env := envWith (Some alice) 20 (inl modelOverloaded) (inl missingRedisUrl) None in
  fst (call (POST env newChatRequest) aliceWorld) = inr (ErrorResponse "offline:chat")
  ∧ only_console_differs aliceWorld (snd (call (POST env newChatRequest) aliceWorld)).
Proof.
  apply (POST_title_failure
           (envWith (Some alice) 20 (inl modelOverloaded) (inl missingRedisUrl) None)
           newChatRequest aliceWorld
           (mkPostRequestBody "chat-9" greeting "chat-model" "public") alice
           modelOverloaded).
  - reflexivity.
  - reflexivity.
  - vm_compute. discriminate.
  - reflexivity.
  - reflexivity.
Defined.


(** ** [POST] after the gate *)

Lemma passesGate_title
    (env : Env) (request : Request) (w : World) (body : PostRequestBody) (user : User) :
  passesGate env request w body user →
  chats (store w) !! body_id body = None →
  ∃ title, generateTitleFromUserMessage env (body_message body) = inr title.
Proof. intros (_ & _ & _ & Hchat) Hnone. by rewrite Hnone in Hchat. Qed.

(** The whole store after a request that passed the gate, however the
    stream stage went. *)
Lemma POST_store_after
    (env : Env) (request : Request) (w : World) (body : PostRequestBody) (user : User) :
  passesGate env request w body user →
  store (exec (POST env request) w) = storeAfterPOST env body user w.
Proof.
  intros (Hbody & Hauth & Hcount & Hchat).
  pattern (exec (POST env request) w). apply wp_exec. unfold POST.
  rewrite Hbody.
  wp_run; try gate_contradiction.
  all: unfold storeAfterPOST, resolvedChats, userTurn, cleanedParts; cbn;
    repeat match goal with
           | H : chats _ !! _ = _ |- _ => rewrite H
           | H : generateTitleFromUserMessage _ _ = _ |- _ => rewrite H
           | H : a2a _ = _ |- _ => rewrite H
           end;
    done.
Qed.

(** X16: after a request that passed the gate the conversation it names
    is stored and belongs to the caller: an existing conversation is left
    exactly as it was, a new one is created with the caller as owner, the
    generated title and the requested visibility; no other conversation is
    touched. *)
Theorem POST_resolves_conversation
    (env : Env) (request : Request) (w : World) (body : PostRequestBody) (user : User) :
  passesGate env request w body user →
  let after := chats (store (exec (POST env request) w)) in
  (∃ chat, after !! body_id body = Some chat ∧ chat_userId chat = user_id user)
  ∧ (∀ chat, chats (store w) !! body_id body = Some chat →
             after = chats (store w))
  ∧ (chats (store w) !! body_id body = None →
     ∃ title,
       generateTitleFromUserMessage env (body_message body) = inr title
       ∧ after !! body_id body
         = Some (mkChat (body_id body) (user_id user) title
                        (body_selectedVisibilityType body)))
  ∧ (∀ id, id ≠ body_id body → after !! id = chats (store w) !! id).
Proof.
  intros Hgate after. subst after.
  rewrite (POST_store_after env request w body user Hgate).
  destruct Hgate as (_ & _ & _ & Hchat).
  unfold storeAfterPOST, resolvedChats. simpl.
  destruct (chats (store w) !! body_id body) as [chat|] eqn:Hlookup.
  - split; [by exists chat|]. split; [done|]. split; done.
  - destruct Hchat as [title Htitle]. rewrite Htitle.
    split; [|split; [|split]].
    + eexists. split; [apply lookup_insert_eq | done].
    + done.
    + intros _. exists title. split; [done | apply lookup_insert_eq].
    + intros id Hid. by apply lookup_insert_ne.
Qed.

Lemma newChatRequest_passesGate :
  passesGate (envOf alice 20) newChatRequest aliceWorld
             (mkPostRequestBody "chat-9" greeting "chat-model" "public") alice.
Proof.
  split; [reflexivity|]. split; [reflexivity|].
  split; [vm_compute; discriminate|].
  exists "New chat". reflexivity.
Defined.

Lemma POST_resolves_conversation_example :
  ∃ title,
    generateTitleFromUserMessage (envOf alice 20) greeting = inr title
    ∧ chats (store (exec (POST (envOf alice 20) newChatRequest) aliceWorld)) !! "chat-9"
      = Some (mkChat "chat-9" "user-alice" title "public").
Proof.
  apply (POST_resolves_conversation (envOf alice 20) newChatRequest aliceWorld
           (mkPostRequestBody "chat-9" greeting "chat-model" "public") alice
           newChatRequest_passesGate).
  reflexivity.
Defined.

(** X17: when a resumable context is at hand (cached, or created by this
    very call) and opening the resumable stream succeeds, a request that
    passed the gate is answered with the resumable stream over the
    conversation, keyed by the stream id that was generated for it, and
    that same id is recorded with the conversation as a stream session. *)
Theorem POST_resumable_stream
    (env : Env) (request : Request) (w : World) (body : PostRequestBody)
    (user : User) (ctx : ResumableStreamContext) :
  passesGate env request w body user →
  (globalStreamContext w = Some ctx
   ∨ (globalStreamContext w = None
      ∧ createResumableStreamContext env (ctxAttempts w) = inr ctx)) →
  resumableStream env ctx (generateUUID env (uuidCalls w)) = None →
  let streamId := generateUUID env (uuidCalls w) in
  let w' := snd (call (POST env request) w) in
  fst (call (POST env request) w)
  = inr (StreamResponse (Some streamId) (streamFor body w))
  ∧ streams (store w') = streams (store w) ++ [(streamId, body_id body)]
  ∧ globalStreamContext w' = Some ctx.
Proof.
  intros (Hbody & Hauth & Hcount & Hchat) Hctx Hopen streamId w'.
  subst streamId w'.
  pattern (call (POST env request) w). apply wp_call. unfold POST.
  rewrite Hbody.
  destruct Hctx as [Hg|[Hg Hcreate]];
    wp_run; try gate_contradiction; by cbn.
Qed.

Lemma POST_resumable_stream_example :
  let env := envWith (Some alice) 20 (inr "New chat") (inr readyContext) None in
  let w' := snd (call (POST env chatRequest) aliceWorld) in
  fst (call (POST env chatRequest) aliceWorld)
  = inr (StreamResponse (Some "uuid-0")
           (streamFor (mkPostRequestBody "chat-1" greeting "chat-model" "private")
                      aliceWorld))
  ∧ streams (store w') = streams (store aliceWorld) ++ [("uuid-0", "chat-1")]
  ∧ globalStreamContext w' = Some readyContext.
Proof.
  apply (POST_resumable_stream
           (envWith (Some alice) 20 (inr "New chat") (inr readyContext) None)
           chatRequest aliceWorld
           (mkPostRequestBody "chat-1" greeting "chat-model" "private") alice
           readyContext).
  - split; [reflexivity|]. split; [reflexivity|].
    split; [vm_compute; discriminate | vm_compute; reflexivity].
  - right. split; reflexivity.
  - reflexivity.
Defined.




(** ** [POST] and the store as a whole *)

(** X19: whatever happens, [POST] only adds to the store: every turn and
    stream session stored before is still there, in place, every
    conversation stored before is unchanged, and at most one turn is
    added. *)
Theorem POST_only_adds (env : Env) (request : Request) (w : World) :
  store_extends (store w) (store (exec (POST env request) w))
  ∧ (length (messages (store (exec (POST env request) w)))
     ≤ S (length (messages (store w))))%nat.
Proof.
  pattern (exec (POST env request) w). apply wp_exec. unfold POST.
  wp_run.
  all: unfold store_extends; cbn; rewrite ?length_app; cbn.
  all: split; [split; [|split]|lia].
  all: first [ by exists []; rewrite app_nil_r | by eexists | idtac ].
  all: first [ done
             | intros id c Hc; rewrite lookup_insert_ne; [done|];
               intros Heq; congruence ].
Qed.

Lemma POST_over_quota
    (env : Env) (request : Request) (w : World) (body : PostRequestBody) (user : User) :
  req_body request = BodyOk body →
  auth env ≫= session_user = Some user →
  maxMessagesPerDay (entitlementsByUserType env (user_type user))
    < countRecent (store w) (clock w) (user_id user) 24 →
  fst (call (POST env request) w) = inr (ErrorResponse "rate_limit:chat").
Proof.
  intros Hbody Hauth Hover.
  pattern (call (POST env request) w). apply wp_call. unfold POST.
  rewrite Hbody. wp_run. by cbn.
Qed.

Lemma resolvedChats_owner
    (env : Env) (request : Request) (w : World) (body : PostRequestBody) (user : User) :
  passesGate env request w body user →
  ∃ chat, resolvedChats env body user (store w) !! body_id body = Some chat
          ∧ chat_userId chat = user_id user.
Proof.
  intros (_ & _ & _ & Hchat). unfold resolvedChats.
  destruct (chats (store w) !! body_id body) as [chat|] eqn:Hlookup.
  - by exists chat.
  - destruct Hchat as [title ->]. eexists. by rewrite lookup_insert_eq.
Qed.

Lemma resolvedChats_old_turns
    (env : Env) (body : PostRequestBody) (user : User) (s : Store) (m : DBMessage) :
  turns_have_chats s → m ∈ messages s →
  resolvedChats env body user s !! msg_chatId m = chats s !! msg_chatId m.
Proof.
  intros Hturns Hm. unfold resolvedChats.
  destruct (chats s !! body_id body) as [chat|] eqn:Hlookup; [done|].
  destruct (generateTitleFromUserMessage env (body_message body)); [done|].
  apply lookup_insert_ne. intros Heq.
  destruct (Hturns m Hm) as [c Hc]. congruence.
Qed.

(** X20: a request that passes the gate keeps the store well linked: if
    every stored turn belonged to a stored conversation before, the same
    holds afterwards, the new user turn included. *)
Theorem POST_keeps_turns_linked
    (env : Env) (request : Request) (w : World) (body : PostRequestBody) (user : User) :
  passesGate env request w body user →
  turns_have_chats (store w) →
  turns_have_chats (store (exec (POST env request) w)).
Proof.
  intros Hgate Hturns.
  rewrite (POST_store_after env request w body user Hgate).
  intros m. unfold storeAfterPOST. simpl.
  rewrite elem_of_app, list_elem_of_singleton. intros [Hm| ->].
  - rewrite (resolvedChats_old_turns env body user (store w) m Hturns Hm).
    by apply Hturns.
  - destruct (resolvedChats_owner env request w body user Hgate) as (chat & Hc & _).
    simpl. by rewrite Hc.
Qed.

Lemma aliceStore_turns_linked : turns_have_chats aliceStore.
Proof.
  intros m Hm. apply list_elem_of_In in Hm. simpl in Hm.
  destruct Hm as [<-|[<-|[]]]; by eexists.
Defined.

Lemma POST_keeps_turns_linked_example :
  turns_have_chats (store (exec (POST (envOf alice 20) newChatRequest) aliceWorld)).
Proof.
  exact (POST_keeps_turns_linked (envOf alice 20) newChatRequest aliceWorld _ alice
           newChatRequest_passesGate aliceStore_turns_linked).
Defined.

Lemma countRecent_after_POST
    (env : Env) (request : Request) (w : World) (body : PostRequestBody) (user : User)
    (now : Z) :
  passesGate env request w body user →
  turns_have_chats (store w) →
  now - 24 * 3600000 ≤ clock w →
  countRecent (storeAfterPOST env body user w) now (user_id user) 24
  = countRecent (store w) now (user_id user) 24 + 1.
Proof.
  intros Hgate Hturns Hwindow. unfold countRecent, storeAfterPOST. simpl.
  rewrite List.filter_app, length_app, Nat2Z.inj_add. f_equal.
  - f_equal. f_equal. apply List.filter_ext_in. intros m Hm.
    apply list_elem_of_In in Hm. unfold ownedBy. simpl.
    by rewrite (resolvedChats_old_turns env body user (store w) m Hturns Hm).
  - destruct (resolvedChats_owner env request w body user Hgate) as (chat & Hc & Howner).
    simpl. unfold ownedBy. simpl. rewrite Hc.
    rewrite !bool_decide_eq_true_2 by (done || lia). done.
Qed.

(** X21: in a store where every turn belongs to a conversation, the turn
    stored by a request that passes the gate adds exactly one to the
    caller's count at every instant up to 24 hours after the request.  So
    a later request of the same caller, made at any time and in any state
    that holds the store the first one left, is answered with the
    rate-limit response as long as the new turn is still inside the
    trailing window and the turns that were there before still make up the
    quota at that time; nothing is claimed once turns have left the
    window. *)
Theorem POST_counts_one_and_closes
    (env : Env) (request : Request) (w : World) (body : PostRequestBody) (user : User) :
  passesGate env request w body user →
  turns_have_chats (store w) →
  let w' := exec (POST env request) w in
  let quota := maxMessagesPerDay (entitlementsByUserType env (user_type user)) in
  (∀ now,
     now - 24 * 3600000 ≤ clock w →
     countRecent (store w') now (user_id user) 24
     = countRecent (store w) now (user_id user) 24 + 1)
  ∧ (∀ later request' body',
       store later = store w' →
       req_body request' = BodyOk body' →
       clock later - 24 * 3600000 ≤ clock w →
       quota ≤ countRecent (store w) (clock later) (user_id user) 24 →
       fst (call (POST env request') later) = inr (ErrorResponse "rate_limit:chat")).
Proof.
  intros Hgate Hturns w' quota.
  assert (Hcount : ∀ now,
             now - 24 * 3600000 ≤ clock w →
             countRecent (store w') now (user_id user) 24
             = countRecent (store w) now (user_id user) 24 + 1).
  { intros now Hwindow. subst w'.
    rewrite (POST_store_after env request w body user Hgate).
    by apply (countRecent_after_POST env request). }
  split; [done|].
  intros later request' body' Hstore Hbody' Hwindow Hquota.
  destruct Hgate as (_ & Hauth & _).
  apply (POST_over_quota env request' later body' user Hbody' Hauth).
  rewrite Hstore, (Hcount (clock later) Hwindow). subst quota. lia.
Qed.

Lemma POST_counts_one_and_closes_example :
  let body := mkPostRequestBody "chat-1" greeting "chat-model" "private" in
  let w' := exec (POST (envOf alice 2) chatRequest) aliceWorld in
  let later := mkWorld (storeAfterPOST (envOf alice 2) body alice aliceWorld)
                       None [] 5000 0 0 in
  countRecent (store w') 5000 (user_id alice) 24 = 3
  ∧ fst (call (POST (envOf alice 2) chatRequest) later)
    = inr (ErrorResponse "rate_limit:chat").
Proof.
  assert (Hgate : passesGate (envOf alice 2) chatRequest aliceWorld
                    (mkPostRequestBody "chat-1" greeting "chat-model" "private") alice).
  { split; [reflexivity|]. split; [reflexivity|].
    split; [vm_compute; discriminate | vm_compute; reflexivity]. }
  destruct (POST_counts_one_and_closes (envOf alice 2) chatRequest aliceWorld _ alice
              Hgate aliceStore_turns_linked) as [Hcount Hcloses].
  split.
  - apply (Hcount 5000). vm_compute. discriminate.
  - refine (Hcloses _ chatRequest
              (mkPostRequestBody "chat-1" greeting "chat-model" "private") _ _ _ _).
    + exact (eq_sym (POST_store_after (envOf alice 2) chatRequest aliceWorld _ alice
                       Hgate)).
    + reflexivity.
    + vm_compute. discriminate.
    + vm_compute. discriminate.
Defined.


(** ** [DELETE]: the order of its checks, and deletion *)

(** X22: a delete request without an id, or with an empty one, is answered
    with the bad-request response whoever makes it, signed in or not, and
    nothing changes. *)
Theorem DELETE_without_id (env : Env) (request : Request) (w : World) :
  req_id request = None ∨ req_id request = Some "" →
  call (DELETE env request) w = (inr (ErrorResponse "bad_request:api"), w).
Proof.
  intros Hid.
  pattern (call (DELETE env request) w). apply wp_call. unfold DELETE.
  destruct Hid as [-> | ->]; simpl; by wp_run.
Qed.

Lemma DELETE_without_id_example :
  call (DELETE envNoRedis (mkRequest (BodyUnreadable bareThrow) (Some ""))) aliceWorld
  = (inr (ErrorResponse "bad_request:api"), aliceWorld).
Proof.
  apply (DELETE_without_id envNoRedis (mkRequest (BodyUnreadable bareThrow) (Some ""))
           aliceWorld).
  right. reflexivity.
Defined.

(** X23: a delete request that names an id but comes from nobody signed in
    is answered with the unauthorized response before the conversation is
    looked up: nothing changes and nothing is raised, whether or not a
    conversation with that id exists. *)
Theorem DELETE_unauthenticated
    (env : Env) (request : Request) (w : World) (id : string) :
  req_id request = Some id →
  id ≠ "" →
  auth env ≫= session_user = None →
  call (DELETE env request) w = (inr (ErrorResponse "unauthorized:chat"), w).
Proof.
  intros Hid Hne Hauth.
  pattern (call (DELETE env request) w). apply wp_call. unfold DELETE.
  rewrite Hid, (missing_Some id Hne), Hauth. by wp_run.
Qed.

Lemma DELETE_unauthenticated_example :
  call (DELETE envNoRedis (mkRequest (BodyUnreadable bareThrow) (Some "chat-404")))
       aliceWorld
  = (inr (ErrorResponse "unauthorized:chat"), aliceWorld).
Proof.
  apply (DELETE_unauthenticated envNoRedis _ aliceWorld "chat-404");
    [reflexivity | discriminate | reflexivity].
Defined.

Lemma DELETE_by_owner_run
    (env : Env) (request : Request) (w : World) (id : string)
    (chat : Chat) (user : User) :
  req_id request = Some id →
  id ≠ "" →
  auth env ≫= session_user = Some user →
  chats (store w) !! id = Some chat →
  chat_userId chat = user_id user →
  call (DELETE env request) w
  = (inr (JsonResponse 200 (Some chat)),
     set_store (mkStore (delete id (chats (store w)))
                        (List.filter (λ m, negb (bool_decide (msg_chatId m = id)))
                                     (messages (store w)))
                        (streams (store w))) w).
Proof.
  intros Hid Hne Hauth Hchat Howner.
  pattern (call (DELETE env request) w). apply wp_call.
  apply (DELETE_reaches_ownership_check env request w id user); [done..|].
  do 4 wp_step. rewrite Hchat. wp_run. cbn. by rewrite Hchat.
Qed.

(** X24: a delete request by the owner of the conversation is answered
    with status 200 and the deleted record; afterwards the conversation is
    gone together with exactly its own turns, and every other conversation,
    every other turn and every stream session is as before. *)
Theorem DELETE_by_owner
    (env : Env) (request : Request) (w : World) (id : string)
    (chat : Chat) (user : User) :
  req_id request = Some id →
  id ≠ "" →
  auth env ≫= session_user = Some user →
  chats (store w) !! id = Some chat →
  chat_userId chat = user_id user →
  let after := store (snd (call (DELETE env request) w)) in
  fst (call (DELETE env request) w) = inr (JsonResponse 200 (Some chat))
  ∧ chats after !! id = None
  ∧ (∀ id', id' ≠ id → chats after !! id' = chats (store w) !! id')
  ∧ (∀ m, m ∈ messages after ↔ m ∈ messages (store w) ∧ msg_chatId m ≠ id)
  ∧ streams after = streams (store w).
Proof.
  intros Hid Hne Hauth Hchat Howner after. subst after.
  rewrite (DELETE_by_owner_run env request w id chat user) by done. simpl.
  split; [done|]. split; [apply lookup_delete_eq|].
  split; [by intros id' Hid'; apply lookup_delete_ne|].
  split; [|done].
  intros m. rewrite list_elem_of_In, List.filter_In, <- list_elem_of_In.
  rewrite negb_true_iff, bool_decide_eq_false. done.
Qed.

Lemma DELETE_by_owner_example :
  let request := mkRequest (BodyUnreadable bareThrow) (Some "chat-1") in
  let after := store (snd (call (DELETE (envOf alice 20) request) aliceWorld)) in
  fst (call (DELETE (envOf alice 20) request) aliceWorld)
  = inr (JsonResponse 200 (Some aliceChat))
  ∧ chats after !! "chat-1" = None
  ∧ (∀ id', id' ≠ "chat-1" → chats after !! id' = chats (store aliceWorld) !! id')
  ∧ (∀ m, m ∈ messages after ↔ m ∈ messages (store aliceWorld) ∧ msg_chatId m ≠ "chat-1")
  ∧ streams after = streams (store aliceWorld).
Proof.
  apply (DELETE_by_owner (envOf alice 20)
           (mkRequest (BodyUnreadable bareThrow) (Some "chat-1")) aliceWorld
           "chat-1" aliceChat alice);
    [reflexivity | discriminate | reflexivity | reflexivity | reflexivity].
Defined.

(** X25: deleting is not repeatable: after the owner has deleted a
    conversation, the same request made again does not get a response; it
    raises the [TypeError] of the unguarded ownership check. *)
Theorem DELETE_twice_raises
    (env : Env) (request : Request) (w : World) (id : string)
    (chat : Chat) (user : User) :
  req_id request = Some id →
  id ≠ "" →
  auth env ≫= session_user = Some user →
  chats (store w) !! id = Some chat →
  chat_userId chat = user_id user →
  fst (call (DELETE env request) (snd (call (DELETE env request) w)))
  = inl (typeError "userId").
Proof.
  intros Hid Hne Hauth Hchat Howner.
  rewrite (DELETE_by_owner_run env request w id chat user) by done. cbn [snd].
  set (w1 := set_store _ w).
  assert (Hgone : chats (store w1) !! id = None) by apply lookup_delete_eq.
  pattern (call (DELETE env request) w1). apply wp_call.
  apply (DELETE_reaches_ownership_check env request w1 id user); [done..|].
  do 4 wp_step. rewrite Hgone. by wp_run.
Qed.

Lemma DELETE_twice_raises_example :
  let request := mkRequest (BodyUnreadable bareThrow) (Some "chat-1") in
  fst (call (DELETE (envOf alice 20) request)
            (snd (call (DELETE (envOf alice 20) request) aliceWorld)))
  = inl (typeError "userId").
Proof.
  apply (DELETE_twice_raises (envOf alice 20)
           (mkRequest (BodyUnreadable bareThrow) (Some "chat-1")) aliceWorld
           "chat-1" aliceChat alice);
    [reflexivity | discriminate | reflexivity | reflexivity | reflexivity].
Defined.

(** ** The model catalogue against the provider table *)

(** X27: the catalogue offers the default model and no model twice, and
    outside the test environment every model it offers has an entry in the
    provider table; in the test environment exactly one of them has none:
    the a2a model, which the route nevertheless handles. *)
Theorem catalogue_registered :
  DEFAULT_CHAT_MODEL ∈ map model_id chatModels
  ∧ NoDup (map model_id chatModels)
  ∧ Forall (λ id, is_Some (myProvider false !! id)) (map model_id chatModels)
  ∧ filter (λ id, myProvider true !! id = None) (map model_id chatModels)
    = ["a2a-model"].
Proof.
  split; [apply (bool_decide_unpack _); by vm_compute|].
  split; [apply (bool_decide_unpack _); by vm_compute|].
  split; [repeat constructor; by eexists | by vm_compute].
Qed.
